(** * RPi-MCP23S17: the register driver of [RPiMCP23S17/MCP23S17.py]

    A shallow embedding of the class [MCP23S17]: the instance attributes are a
    record, the two collaborators ([spidev.SpiDev] and [RPi.GPIO]) are a world
    with an event trace, and every method is a function in a state-and-exception
    monad in which the mutations made before an exception persist, as they do
    in Python. *)

From Stdlib Require Import ZArith List Lia String Bool.
From stdpp Require Import base gmap.
Import ListNotations.
Open Scope Z_scope.

(** ** Class-level constants *)

Definition PULLUP_ENABLED : Z := 0.
Definition PULLUP_DISABLED : Z := 1.

Definition DIR_INPUT : Z := 0.
Definition DIR_OUTPUT : Z := 1.

Definition LEVEL_LOW : Z := 0.
Definition LEVEL_HIGH : Z := 1.

Definition MCP23S17_IODIRA : Z := 0x00.
Definition MCP23S17_IODIRB : Z := 0x01.
Definition MCP23S17_GPIOA : Z := 0x12.
Definition MCP23S17_GPIOB : Z := 0x13.
Definition MCP23S17_IOCON : Z := 0x0A.
Definition MCP23S17_GPPUA : Z := 0x0C.
Definition MCP23S17_GPPUB : Z := 0x0D.

Definition IOCON_HAEN : Z := 0x08.
Definition IOCON_SEQOP : Z := 0x20.
Definition IOCON_INIT : Z := 0x28.

Definition MCP23S17_CMD_WRITE : Z := 0x40.
Definition MCP23S17_CMD_READ : Z := 0x41.

(** ** Exceptions and observable events *)

Inductive exn : Type :=
| AssertionError                 (* a failed [assert] *)
| AttributeError (name : string) (* reading an attribute that was never bound *)
| ValueError                     (* [1 << n] with a negative [n] *)
| IndexError                     (* [data[2]] on a response shorter than 3 *)
| IOError.                       (* raised by the bus transport *)

Inductive event : Type :=
| GPIO_setwarnings (flag : bool)
| GPIO_setmode_BOARD
| GPIO_setup_OUT (pin : Z)
| GPIO_output (pin : Z) (level : bool)
| SPI_open (bus ce : Z)
| SPI_close
| SPI_set_mode (mode : Z)
| SPI_xfer2 (frame : list Z).

(** The frames handed to [xfer2], oldest first. *)
Fixpoint transfers (tr : list event) : list (list Z) :=
  match tr with
  | [] => []
  | SPI_xfer2 frame :: tr' => frame :: transfers tr'
  | _ :: tr' => transfers tr'
  end.

(** ** The instance attributes

    [__init__] binds the first twelve attributes.  The methods also read
    [self.bus], [self.ce] and [self._PIN_MCP_CS], which no method of the class
    ever binds: they are [None] unless the caller has assigned them on the
    instance, and reading an unbound one raises [AttributeError]. *)

Record MCP23S17 : Type := {
  deviceID : Z;
  _GPIOA : Z;
  _GPIOB : Z;
  _IODIRA : Z;
  _IODIRB : Z;
  _GPPUA : Z;
  _GPPUB : Z;
  _pin_reset : Z;
  _bus : Z;
  _pin_cs : Z;
  _spimode : Z;
  isInitialized : bool;
  bus : option Z;
  ce : option Z;
  _PIN_MCP_CS : option Z
}.

Definition __init__ (bus pin_cs pin_reset deviceID : Z) : MCP23S17 :=
  {| deviceID := deviceID;
     _GPIOA := 0; _GPIOB := 0;
     _IODIRA := 0; _IODIRB := 0;
     _GPPUA := 0; _GPPUB := 0;
     _pin_reset := pin_reset;
     _bus := bus;
     _pin_cs := pin_cs;
     _spimode := 0;
     isInitialized := false;
     bus := None; ce := None; _PIN_MCP_CS := None |}.

Definition set_GPIOA (v : Z) (s : MCP23S17) : MCP23S17 :=
  {| deviceID := deviceID s; _GPIOA := v; _GPIOB := _GPIOB s;
     _IODIRA := _IODIRA s; _IODIRB := _IODIRB s;
     _GPPUA := _GPPUA s; _GPPUB := _GPPUB s;
     _pin_reset := _pin_reset s; _bus := _bus s; _pin_cs := _pin_cs s;
     _spimode := _spimode s; isInitialized := isInitialized s;
     bus := bus s; ce := ce s; _PIN_MCP_CS := _PIN_MCP_CS s |}.

Definition set_GPIOB (v : Z) (s : MCP23S17) : MCP23S17 :=
  {| deviceID := deviceID s; _GPIOA := _GPIOA s; _GPIOB := v;
     _IODIRA := _IODIRA s; _IODIRB := _IODIRB s;
     _GPPUA := _GPPUA s; _GPPUB := _GPPUB s;
     _pin_reset := _pin_reset s; _bus := _bus s; _pin_cs := _pin_cs s;
     _spimode := _spimode s; isInitialized := isInitialized s;
     bus := bus s; ce := ce s; _PIN_MCP_CS := _PIN_MCP_CS s |}.

Definition set_IODIRA (v : Z) (s : MCP23S17) : MCP23S17 :=
  {| deviceID := deviceID s; _GPIOA := _GPIOA s; _GPIOB := _GPIOB s;
     _IODIRA := v; _IODIRB := _IODIRB s;
     _GPPUA := _GPPUA s; _GPPUB := _GPPUB s;
     _pin_reset := _pin_reset s; _bus := _bus s; _pin_cs := _pin_cs s;
     _spimode := _spimode s; isInitialized := isInitialized s;
     bus := bus s; ce := ce s; _PIN_MCP_CS := _PIN_MCP_CS s |}.

Definition set_IODIRB (v : Z) (s : MCP23S17) : MCP23S17 :=
  {| deviceID := deviceID s; _GPIOA := _GPIOA s; _GPIOB := _GPIOB s;
     _IODIRA := _IODIRA s; _IODIRB := v;
     _GPPUA := _GPPUA s; _GPPUB := _GPPUB s;
     _pin_reset := _pin_reset s; _bus := _bus s; _pin_cs := _pin_cs s;
     _spimode := _spimode s; isInitialized := isInitialized s;
     bus := bus s; ce := ce s; _PIN_MCP_CS := _PIN_MCP_CS s |}.

Definition set_GPPUA (v : Z) (s : MCP23S17) : MCP23S17 :=
  {| deviceID := deviceID s; _GPIOA := _GPIOA s; _GPIOB := _GPIOB s;
     _IODIRA := _IODIRA s; _IODIRB := _IODIRB s;
     _GPPUA := v; _GPPUB := _GPPUB s;
     _pin_reset := _pin_reset s; _bus := _bus s; _pin_cs := _pin_cs s;
     _spimode := _spimode s; isInitialized := isInitialized s;
     bus := bus s; ce := ce s; _PIN_MCP_CS := _PIN_MCP_CS s |}.

Definition set_GPPUB (v : Z) (s : MCP23S17) : MCP23S17 :=
  {| deviceID := deviceID s; _GPIOA := _GPIOA s; _GPIOB := _GPIOB s;
     _IODIRA := _IODIRA s; _IODIRB := _IODIRB s;
     _GPPUA := _GPPUA s; _GPPUB := v;
     _pin_reset := _pin_reset s; _bus := _bus s; _pin_cs := _pin_cs s;
     _spimode := _spimode s; isInitialized := isInitialized s;
     bus := bus s; ce := ce s; _PIN_MCP_CS := _PIN_MCP_CS s |}.

Definition set_isInitialized (b : bool) (s : MCP23S17) : MCP23S17 :=
  {| deviceID := deviceID s; _GPIOA := _GPIOA s; _GPIOB := _GPIOB s;
     _IODIRA := _IODIRA s; _IODIRB := _IODIRB s;
     _GPPUA := _GPPUA s; _GPPUB := _GPPUB s;
     _pin_reset := _pin_reset s; _bus := _bus s; _pin_cs := _pin_cs s;
     _spimode := _spimode s; isInitialized := b;
     bus := bus s; ce := ce s; _PIN_MCP_CS := _PIN_MCP_CS s |}.

(** ** The bus transport

    [spidev.SpiDev] is an external collaborator: a state of some type [T]
    with an [open] and a full-duplex transfer, either of which can fail. *)

Class SpiDev (T : Type) : Type := {
  spi_open : T -> Z -> Z -> option T;
  spi_xfer2 : T -> list Z -> option (T * list Z)
}.

Record world (T : Type) : Type := World {
  spi : T;              (* the device behind [self._spi] *)
  spi_mode : Z;         (* [self._spi.mode] *)
  trace : list event    (* calls made on [GPIO] and [self._spi], oldest first *)
}.
Arguments World {T} _ _ _.
Arguments spi {T} _.
Arguments spi_mode {T} _.
Arguments trace {T} _.

Definition log {T} (e : event) (w : world T) : world T :=
  World (spi w) (spi_mode w) (trace w ++ [e]).

(** ** The monad of method bodies *)

Inductive outcome (A : Type) : Type :=
| Return (a : A)
| Raise (e : exn).
Arguments Return {A} _.
Arguments Raise {A} _.

Definition M (T A : Type) : Type :=
  MCP23S17 * world T -> outcome A * (MCP23S17 * world T).

Definition ret {T A} (a : A) : M T A := fun st => (Return a, st).

Definition raise {T A} (e : exn) : M T A := fun st => (Raise e, st).

Definition bind {T A B} (m : M T A) (k : A -> M T B) : M T B :=
  fun st =>
    match m st with
    | (Return a, st') => k a st'
    | (Raise e, st') => (Raise e, st')
    end.

Declare Scope py_scope.
Delimit Scope py_scope with py.
Notation "'let*' x ':=' m 'in' k" := (bind m (fun x => k))
  (at level 10, x pattern, m at level 100, k at level 200) : py_scope.
Notation "m ';;' k" := (bind m (fun _ => k))
  (at level 100, k at level 200, right associativity) : py_scope.
Open Scope py_scope.

Definition assert {T} (b : bool) : M T unit :=
  if b then ret tt else raise AssertionError.

Definition getattr {T A} (f : MCP23S17 -> A) : M T A :=
  fun st => (Return (f (fst st)), st).

(** Reading an attribute that only a caller can have bound. *)
Definition getattr_unbound {T} (name : string) (f : MCP23S17 -> option Z) : M T Z :=
  fun st =>
    match f (fst st) with
    | Some v => (Return v, st)
    | None => (Raise (AttributeError name), st)
    end.

Definition setattr {T} (upd : MCP23S17 -> MCP23S17) : M T unit :=
  fun st => (Return tt, (upd (fst st), snd st)).

Definition emit {T} (e : event) : M T unit :=
  fun st => (Return tt, (fst st, log e (snd st))).

(** [a << n]: Python raises [ValueError] on a negative shift count. *)
Definition lshift {T} (a n : Z) : M T Z :=
  if n <? 0 then raise ValueError else ret (Z.shiftl a n).

(** [range(lo, hi)] and a [for] loop over a list. *)
Definition range (lo hi : Z) : list Z :=
  map (fun i => lo + Z.of_nat i) (seq 0 (Z.to_nat (hi - lo))).

Fixpoint for_each {T} (l : list Z) (body : Z -> M T unit) : M T unit :=
  match l with
  | [] => ret tt
  | i :: l' => body i ;; for_each l' body
  end.

(** ** The methods of the class *)

Section Driver.
Context {T : Type} `{SpiDev T}.

(** *** Calls on [self._spi] *)

Definition spidev_open (b c : Z) : M T unit :=
  fun st =>
    let w := log (SPI_open b c) (snd st) in
    match spi_open (spi w) b c with
    | Some t' => (Return tt, (fst st, World t' (spi_mode w) (trace w)))
    | None => (Raise IOError, (fst st, w))
    end.

Definition spidev_close : M T unit := emit SPI_close.

Definition spidev_mode : M T Z :=
  fun st => (Return (spi_mode (snd st)), st).

Definition spidev_set_mode (m : Z) : M T unit :=
  fun st =>
    let w := log (SPI_set_mode m) (snd st) in
    (Return tt, (fst st, World (spi w) m (trace w))).

Definition xfer2 (frame : list Z) : M T (list Z) :=
  fun st =>
    let w := log (SPI_xfer2 frame) (snd st) in
    match spi_xfer2 (spi w) frame with
    | Some (t', resp) => (Return resp, (fst st, World t' (spi_mode w) (trace w)))
    | None => (Raise IOError, (fst st, w))
    end.

(** *** Private helpers *)

Definition _setupGPIO : M T unit :=
  emit (GPIO_setwarnings false) ;;
  emit GPIO_setmode_BOARD ;;
  let* r := getattr _pin_reset in
  if negb (r =? -1) then
    emit (GPIO_setup_OUT r) ;;
    emit (GPIO_output r true)
  else ret tt.

Definition _setSpiMode (mode : Z) : M T unit :=
  let* cur := spidev_mode in
  if negb (cur =? mode) then
    spidev_set_mode mode ;;
    xfer2 [0] ;;
    ret tt
  else ret tt.

Definition _writeRegister (register value : Z) : M T unit :=
  let* init := getattr isInitialized in
  assert init ;;
  let* dev := getattr deviceID in
  let command := Z.lor MCP23S17_CMD_WRITE (Z.shiftl dev 1) in
  let* mode := getattr _spimode in
  _setSpiMode mode ;;
  let* cs := getattr_unbound "_PIN_MCP_CS" _PIN_MCP_CS in
  emit (GPIO_output cs false) ;;
  xfer2 [command; register; value] ;;
  let* cs := getattr_unbound "_PIN_MCP_CS" _PIN_MCP_CS in
  emit (GPIO_output cs true).

Definition _readRegister (register : Z) : M T Z :=
  let* init := getattr isInitialized in
  assert init ;;
  let* dev := getattr deviceID in
  let command := Z.lor MCP23S17_CMD_READ (Z.shiftl dev 1) in
  let* mode := getattr _spimode in
  _setSpiMode mode ;;
  let* cs := getattr_unbound "_PIN_MCP_CS" _PIN_MCP_CS in
  emit (GPIO_output cs false) ;;
  let* data := xfer2 [command; register; 0] in
  let* cs := getattr_unbound "_PIN_MCP_CS" _PIN_MCP_CS in
  emit (GPIO_output cs true) ;;
  match nth_error data 2 with
  | Some v => ret v
  | None => raise IndexError
  end.

Definition _readRegisterWord (register : Z) : M T Z :=
  let* init := getattr isInitialized in
  assert init ;;
  let* b0 := _readRegister register in
  let* b1 := _readRegister (register + 1) in
  ret (Z.lor (Z.shiftl b1 8) b0).

Definition _writeRegisterWord (register data : Z) : M T unit :=
  let* init := getattr isInitialized in
  assert init ;;
  _writeRegister register (Z.land data 0xFF) ;;
  _writeRegister (register + 1) (Z.shiftr data 8).

(** *** Public methods *)

Definition setPullupMode (pin mode : Z) : M T unit :=
  assert (pin <? 16) ;;
  assert ((mode =? PULLUP_ENABLED) || (mode =? PULLUP_DISABLED)) ;;
  let* init := getattr isInitialized in
  assert init ;;
  let* (register, data, noshifts) :=
    (if pin <? 8 then
       let* d := getattr _GPPUA in ret (MCP23S17_GPPUA, d, pin)
     else
       let* d := getattr _GPPUB in ret (MCP23S17_GPPUB, d, Z.land pin 0x07)) in
  let* data :=
    (if mode =? PULLUP_ENABLED then
       let* b := lshift 1 noshifts in ret (Z.lor data b)
     else
       let* b := lshift 1 noshifts in ret (Z.land data (Z.lnot b))) in
  _writeRegister register data ;;
  if pin <? 8 then setattr (set_GPPUA data) else setattr (set_GPPUB data).

Definition setDirection (pin direction : Z) : M T unit :=
  assert (pin <? 16) ;;
  assert ((direction =? DIR_INPUT) || (direction =? DIR_OUTPUT)) ;;
  let* init := getattr isInitialized in
  assert init ;;
  let* (register, data, noshifts) :=
    (if pin <? 8 then
       let* d := getattr _IODIRA in ret (MCP23S17_IODIRA, d, pin)
     else
       let* d := getattr _IODIRB in ret (MCP23S17_IODIRB, d, Z.land pin 0x07)) in
  let* data :=
    (if direction =? DIR_INPUT then
       let* b := lshift 1 noshifts in ret (Z.lor data b)
     else
       let* b := lshift 1 noshifts in ret (Z.land data (Z.lnot b))) in
  _writeRegister register data ;;
  if pin <? 8 then setattr (set_IODIRA data) else setattr (set_IODIRB data).

Definition digitalRead (pin : Z) : M T Z :=
  let* init := getattr isInitialized in
  assert init ;;
  assert (pin <? 16) ;;
  if pin <? 8 then
    let* v := _readRegister MCP23S17_GPIOA in
    setattr (set_GPIOA v) ;;
    let* a := getattr _GPIOA in
    let* b := lshift 1 pin in
    if negb (Z.land a b =? 0) then ret LEVEL_HIGH else ret LEVEL_LOW
  else
    let* v := _readRegister MCP23S17_GPIOB in
    setattr (set_GPIOB v) ;;
    let pin := Z.land pin 0x07 in
    let* a := getattr _GPIOB in
    let* b := lshift 1 pin in
    if negb (Z.land a b =? 0) then ret LEVEL_HIGH else ret LEVEL_LOW.

Definition digitalWrite (pin level : Z) : M T unit :=
  let* init := getattr isInitialized in
  assert init ;;
  assert (pin <? 16) ;;
  assert ((level =? LEVEL_HIGH) || (level =? LEVEL_LOW)) ;;
  let* (register, data, noshifts) :=
    (if pin <? 8 then
       let* d := getattr _GPIOA in ret (MCP23S17_GPIOA, d, pin)
     else
       let* d := getattr _GPIOB in ret (MCP23S17_GPIOB, d, Z.land pin 0x07)) in
  let* data :=
    (if level =? LEVEL_HIGH then
       let* b := lshift 1 noshifts in ret (Z.lor data b)
     else
       let* b := lshift 1 noshifts in ret (Z.land data (Z.lnot b))) in
  _writeRegister register data ;;
  if pin <? 8 then setattr (set_GPIOA data) else setattr (set_GPIOB data).

Definition writeGPIO (data : Z) : M T unit :=
  let* init := getattr isInitialized in
  assert init ;;
  setattr (set_GPIOA (Z.land data 0xFF)) ;;
  setattr (set_GPIOB (Z.shiftr data 8)) ;;
  _writeRegisterWord MCP23S17_GPIOA data.

Definition readGPIO : M T Z :=
  let* init := getattr isInitialized in
  assert init ;;
  let* data := _readRegisterWord MCP23S17_GPIOA in
  setattr (set_GPIOA (Z.land data 0xFF)) ;;
  setattr (set_GPIOB (Z.shiftr data 8)) ;;
  ret data.

(** The [for index in range(0, 15)] loop of [open]. *)
Definition open_defaults : M T unit :=
  for_each (range 0 15) (fun index =>
    setDirection index DIR_INPUT ;;
    setPullupMode index PULLUP_ENABLED).

Definition open : M T unit :=
  _setupGPIO ;;
  let* b := getattr_unbound "bus" bus in
  let* c := getattr_unbound "ce" ce in
  spidev_open b c ;;
  _writeRegister MCP23S17_IOCON IOCON_INIT ;;
  open_defaults ;;
  setattr (set_isInitialized true).

Definition close : M T unit :=
  spidev_close ;;
  setattr (set_isInitialized false).

End Driver.

(** ** Test transports *)

(** A chip that keeps a file of 8-bit registers: a write frame stores the low
    eight bits of its data byte at the addressed register, a read frame
    answers with the byte stored there (0 when nothing was written) at
    response index 2.  Bit 0 of the command byte tells a read from a write. *)
Record echo_chip : Type := EchoChip { regs : gmap Z Z }.

#[global] Instance echo_chip_spi : SpiDev echo_chip := {
  spi_open t _ _ := Some t;
  spi_xfer2 t frame :=
    match frame with
    | [command; register; value] =>
        if Z.testbit command 0
        then Some (t, [0; 0; default 0 (regs t !! register)])
        else Some (EchoChip (<[register := Z.land value 0xFF]> (regs t)), [0; 0; 0])
    | _ => Some (t, map (fun _ => 0) frame)
    end
}.

(** A bus that completes [budget] more transfers and fails every later one. *)
Record flaky_bus : Type := FlakyBus { budget : nat }.

#[global] Instance flaky_bus_spi : SpiDev flaky_bus := {
  spi_open t _ _ := Some t;
  spi_xfer2 t frame :=
    match budget t with
    | O => None
    | S n => Some (FlakyBus n, map (fun _ => 0) frame)
    end
}.

(** Binding, from outside the class, the three attributes that the methods
    read and no method assigns. *)
Definition with_attrs (s : MCP23S17) (b c cs : Z) : MCP23S17 :=
  {| deviceID := deviceID s; _GPIOA := _GPIOA s; _GPIOB := _GPIOB s;
     _IODIRA := _IODIRA s; _IODIRB := _IODIRB s;
     _GPPUA := _GPPUA s; _GPPUB := _GPPUB s;
     _pin_reset := _pin_reset s; _bus := _bus s; _pin_cs := _pin_cs s;
     _spimode := _spimode s; isInitialized := isInitialized s;
     bus := Some b; ce := Some c; _PIN_MCP_CS := Some cs |}.

(** The same with the flag set as well: the state in which the pin and
    port operations can reach the bus. *)
Definition patched (s : MCP23S17) (b c cs : Z) : MCP23S17 :=
  set_isInitialized true (with_attrs s b c cs).

Definition fresh_world {T} (t : T) : world T := World t 0 [].

(** One chip-select framed transfer, as it appears in the trace. *)
Definition transaction (cs : Z) (frame : list Z) : list event :=
  [GPIO_output cs false; SPI_xfer2 frame; GPIO_output cs true].

(** What the register primitives need in order to reach the bus: the flag is
    set, the chip-select attribute is bound and the bus already has the
    driver's clock mode (so that [_setSpiMode] has nothing to do). *)
Definition ready {T} (cs : Z) (st : MCP23S17 * world T) : Prop :=
  isInitialized (fst st) = true /\
  _PIN_MCP_CS (fst st) = Some cs /\
  spi_mode (snd st) = _spimode (fst st).

(** What [_setupGPIO] adds to the trace. *)
Definition setup_events (pin_reset : Z) : list event :=
  [GPIO_setwarnings false; GPIO_setmode_BOARD] ++
  (if negb (pin_reset =? -1)
   then [GPIO_setup_OUT pin_reset; GPIO_output pin_reset true]
   else []).

(** Every public pin and port operation answers with [AssertionError] and
    changes nothing. *)
Definition all_ops_fault {T} `{SpiDev T} (st : MCP23S17 * world T) : Prop :=
  (forall pin mode, setPullupMode pin mode st = (Raise AssertionError, st)) /\
  (forall pin direction, setDirection pin direction st = (Raise AssertionError, st)) /\
  (forall pin, digitalRead pin st = (Raise AssertionError, st)) /\
  (forall pin level, digitalWrite pin level st = (Raise AssertionError, st)) /\
  (forall data, writeGPIO data st = (Raise AssertionError, st)) /\
  readGPIO st = (Raise AssertionError, st).

(** ** Banked registers

    Vocabulary for the statements below: the three register pairs, and for a
    pin the address, the shadow attribute and the bit position that the
    [if pin < 8] branches of the methods select. *)

Inductive regpair : Type := IODIR | GPPU | GPIO.

Definition address (f : regpair) (pin : Z) : Z :=
  match f with
  | IODIR => if pin <? 8 then MCP23S17_IODIRA else MCP23S17_IODIRB
  | GPPU => if pin <? 8 then MCP23S17_GPPUA else MCP23S17_GPPUB
  | GPIO => if pin <? 8 then MCP23S17_GPIOA else MCP23S17_GPIOB
  end.

Definition shadow (f : regpair) (pin : Z) (s : MCP23S17) : Z :=
  match f with
  | IODIR => if pin <? 8 then _IODIRA s else _IODIRB s
  | GPPU => if pin <? 8 then _GPPUA s else _GPPUB s
  | GPIO => if pin <? 8 then _GPIOA s else _GPIOB s
  end.

Definition set_shadow (f : regpair) (pin v : Z) (s : MCP23S17) : MCP23S17 :=
  match f with
  | IODIR => if pin <? 8 then set_IODIRA v s else set_IODIRB v s
  | GPPU => if pin <? 8 then set_GPPUA v s else set_GPPUB v s
  | GPIO => if pin <? 8 then set_GPIOA v s else set_GPIOB v s
  end.

Definition bank_bit (pin : Z) : Z := if pin <? 8 then pin else Z.land pin 0x07.

Definition with_bit (set : bool) (data bit : Z) : Z :=
  if set then Z.lor data (Z.shiftl 1 bit)
  else Z.land data (Z.lnot (Z.shiftl 1 bit)).

Definition write_frame (s : MCP23S17) (register value : Z) : list Z :=
  [Z.lor MCP23S17_CMD_WRITE (Z.shiftl (deviceID s) 1); register; value].

Definition read_frame (s : MCP23S17) (register : Z) : list Z :=
  [Z.lor MCP23S17_CMD_READ (Z.shiftl (deviceID s) 1); register; 0].

(** A shadow pair with the bank of [pin] blanked, and with both banks
    blanked: two driver states agree outside that bank (that pair) exactly
    when these are equal. *)
Definition erase_bank (f : regpair) (pin : Z) (s : MCP23S17) : MCP23S17 :=
  set_shadow f pin 0 s.

Definition erase (f : regpair) (s : MCP23S17) : MCP23S17 :=
  set_shadow f 0 0 (set_shadow f 8 0 s).

(** A device that completes the next transfer, whatever the frame. *)
Definition answers {T} `{SpiDev T} (t : T) : Prop :=
  forall frame, is_Some (spi_xfer2 t frame).

(** The logical level that [digitalRead] reports for a bit. *)
Definition level_of (b : bool) : Z := if b then LEVEL_HIGH else LEVEL_LOW.

(** [touches f pin s s']: [s'] is [s], or [s] with a new value in the shadow
    of pair [f] that belongs to the bank of [pin]. *)
Definition touches (f : regpair) (pin : Z) (s s' : MCP23S17) : Prop :=
  s' = s \/ exists v, s' = set_shadow f pin v s.

(** The defaults that [open] gives a pin, as attribute updates: direction
    bit set, then pull-up bit set; [defaults] does so for a list of pins in
    order, and [mask] collects the bits that this sets in bank A ([true]) or
    bank B ([false]). *)
Definition pin_default (pin : Z) (s : MCP23S17) : MCP23S17 :=
  let s1 := set_shadow IODIR pin (with_bit true (shadow IODIR pin s) (bank_bit pin)) s in
  set_shadow GPPU pin (with_bit true (shadow GPPU pin s1) (bank_bit pin)) s1.

Fixpoint defaults (pins : list Z) (s : MCP23S17) : MCP23S17 :=
  match pins with
  | [] => s
  | pin :: pins' => defaults pins' (pin_default pin s)
  end.

Fixpoint mask (bank_a : bool) (pins : list Z) : Z :=
  match pins with
  | [] => 0
  | pin :: pins' =>
      Z.lor (if Bool.eqb (pin <? 8) bank_a then Z.shiftl 1 (bank_bit pin) else 0)
            (mask bank_a pins')
  end.

(** The trace of a transfer that the transport refuses: the chip select
    has been pulled low and the frame handed over; nothing follows. *)
Definition refused (cs : Z) (frame : list Z) : list event :=
  [GPIO_output cs false; SPI_xfer2 frame].

(** * Lemmas *)

(** ** The register primitives *)

Section Primitives.
Context {T : Type} `{SpiDev T}.
Implicit Types (s : MCP23S17) (w : world T).

Lemma _setSpiMode_same s w :
  _setSpiMode (spi_mode w) (s, w) = (Return tt, (s, w)).
Proof.
  unfold _setSpiMode, bind, spidev_mode; simpl.
  now rewrite Z.eqb_refl.
Qed.

Lemma _writeRegister_ok s w cs register value t' resp :
  ready cs (s, w) ->
  spi_xfer2 (spi w)
    [Z.lor MCP23S17_CMD_WRITE (Z.shiftl (deviceID s) 1); register; value]
    = Some (t', resp) ->
  _writeRegister register value (s, w) =
    (Return tt,
     (s, World t' (spi_mode w)
           (trace w ++ transaction cs
              [Z.lor MCP23S17_CMD_WRITE (Z.shiftl (deviceID s) 1); register; value]))).
Proof.
  intros (Hi & Hcs & Hm) Hx; simpl in *.
  unfold _writeRegister, bind at 1, getattr at 1; simpl.
  rewrite Hi; unfold bind at 1; simpl.
  unfold bind at 1, getattr at 1; simpl.
  unfold bind at 1, getattr at 1; simpl.
  rewrite <- Hm. unfold bind at 1. rewrite _setSpiMode_same.
  unfold bind, getattr_unbound, emit, xfer2; simpl.
  rewrite Hcs; simpl. rewrite Hx; simpl. rewrite Hcs.
  unfold transaction, log; simpl. now rewrite <- ?app_assoc.
Qed.

Lemma _writeRegister_fail s w cs register value :
  ready cs (s, w) ->
  spi_xfer2 (spi w)
    [Z.lor MCP23S17_CMD_WRITE (Z.shiftl (deviceID s) 1); register; value]
    = None ->
  _writeRegister register value (s, w) =
    (Raise IOError,
     (s, World (spi w) (spi_mode w)
           (trace w ++
              [GPIO_output cs false;
               SPI_xfer2 [Z.lor MCP23S17_CMD_WRITE (Z.shiftl (deviceID s) 1);
                          register; value]]))).
Proof.
  intros (Hi & Hcs & Hm) Hx; simpl in *.
  unfold _writeRegister, bind at 1, getattr at 1; simpl.
  rewrite Hi; unfold bind at 1; simpl.
  unfold bind at 1, getattr at 1; simpl.
  unfold bind at 1, getattr at 1; simpl.
  rewrite <- Hm. unfold bind at 1. rewrite _setSpiMode_same.
  unfold bind, getattr_unbound, emit, xfer2; simpl.
  rewrite Hcs; simpl. rewrite Hx; simpl.
  unfold log; simpl. now rewrite <- ?app_assoc.
Qed.

Lemma _readRegister_ok s w cs register t' resp v :
  ready cs (s, w) ->
  spi_xfer2 (spi w)
    [Z.lor MCP23S17_CMD_READ (Z.shiftl (deviceID s) 1); register; 0]
    = Some (t', resp) ->
  nth_error resp 2 = Some v ->
  _readRegister register (s, w) =
    (Return v,
     (s, World t' (spi_mode w)
           (trace w ++ transaction cs
              [Z.lor MCP23S17_CMD_READ (Z.shiftl (deviceID s) 1); register; 0]))).
Proof.
  intros (Hi & Hcs & Hm) Hx Hv; simpl in *.
  unfold _readRegister, bind at 1, getattr at 1; simpl.
  rewrite Hi; unfold bind at 1; simpl.
  unfold bind at 1, getattr at 1; simpl.
  unfold bind at 1, getattr at 1; simpl.
  rewrite <- Hm. unfold bind at 1. rewrite _setSpiMode_same.
  unfold bind, getattr_unbound, emit, xfer2; simpl.
  rewrite Hcs; simpl. rewrite Hx; simpl. rewrite Hcs; simpl. rewrite Hv.
  unfold transaction, ret, log; simpl. now rewrite <- ?app_assoc.
Qed.

End Primitives.

(** ** Sequencing *)

Section Sequencing.
Context {T A B : Type}.
Implicit Types (m : M T A) (k : A -> M T B).

Lemma bind_Return m k st a st' :
  m st = (Return a, st') -> bind m k st = k a st'.
Proof. intros E; unfold bind; now rewrite E. Qed.

Lemma bind_Raise m k st e st' :
  m st = (Raise e, st') -> bind m k st = (Raise e, st').
Proof. intros E; unfold bind; now rewrite E. Qed.

End Sequencing.

Lemma transfers_app tr1 tr2 :
  transfers (tr1 ++ tr2) = transfers tr1 ++ transfers tr2.
Proof.
  induction tr1 as [|e tr1 IH]; simpl; [reflexivity|].
  destruct e; simpl; now rewrite IH.
Qed.

Lemma transfers_transaction cs frame :
  transfers (transaction cs frame) = [frame].
Proof. reflexivity. Qed.

(** ** Use without the flag *)

Section Uninitialised.
Context {T : Type} `{SpiDev T}.
Implicit Types (s : MCP23S17) (w : world T).

Lemma flag_clear_all_ops_fault s w :
  isInitialized s = false -> all_ops_fault (s, w).
Proof.
  intros Hi. repeat split; intros.
  - unfold setPullupMode, bind, assert, getattr, raise, ret; simpl.
    destruct (pin <? 16); [|reflexivity].
    destruct ((mode =? PULLUP_ENABLED) || (mode =? PULLUP_DISABLED)); [|reflexivity].
    simpl. now rewrite Hi.
  - unfold setDirection, bind, assert, getattr, raise, ret; simpl.
    destruct (pin <? 16); [|reflexivity].
    destruct ((direction =? DIR_INPUT) || (direction =? DIR_OUTPUT)); [|reflexivity].
    simpl. now rewrite Hi.
  - unfold digitalRead, bind, assert, getattr, raise, ret; simpl. now rewrite Hi.
  - unfold digitalWrite, bind, assert, getattr, raise, ret; simpl. now rewrite Hi.
  - unfold writeGPIO, bind, assert, getattr, raise, ret; simpl. now rewrite Hi.
  - unfold readGPIO, bind, assert, getattr, raise, ret; simpl. now rewrite Hi.
Qed.

Lemma _writeRegister_flag_clear s w register value :
  isInitialized s = false ->
  _writeRegister register value (s, w) = (Raise AssertionError, (s, w)).
Proof.
  intros Hi. unfold _writeRegister, bind, assert, getattr, raise; simpl.
  now rewrite Hi.
Qed.

Lemma close_clears_flag s w :
  close (s, w) = (Return tt, (set_isInitialized false s, log SPI_close w)).
Proof. reflexivity. Qed.

Lemma _setupGPIO_run s w :
  _setupGPIO (s, w) =
    (Return tt, (s, World (spi w) (spi_mode w) (trace w ++ setup_events (_pin_reset s)))).
Proof.
  unfold _setupGPIO, setup_events, bind, emit, getattr, ret, log; simpl.
  destruct (_pin_reset s =? -1); simpl; now rewrite <- ?app_assoc.
Qed.

Lemma open_bus_unbound s w :
  bus s = None ->
  open (s, w) =
    (Raise (AttributeError "bus"),
     (s, World (spi w) (spi_mode w) (trace w ++ setup_events (_pin_reset s)))).
Proof.
  intros Hb. unfold open.
  erewrite bind_Return by apply _setupGPIO_run.
  unfold bind, getattr_unbound; simpl. now rewrite Hb.
Qed.

(** From a state in which the flag is clear, [open] never returns and never
    sets the flag, whatever the caller has bound: with [bus] and [ce] bound
    it gets as far as the first [_writeRegister], whose own assertion on the
    flag fails. *)
Lemma open_flag_clear s w :
  isInitialized s = false ->
  exists e w', open (s, w) = (Raise e, (s, w')) /\ transfers (trace w') = transfers (trace w).
Proof.
  intros Hi. unfold open.
  erewrite bind_Return by apply _setupGPIO_run.
  assert (Htr : transfers (trace w ++ setup_events (_pin_reset s)) = transfers (trace w)).
  { rewrite transfers_app. unfold setup_events.
    destruct (negb (_pin_reset s =? -1)); simpl; now rewrite app_nil_r. }
  unfold bind at 1, getattr_unbound at 1; simpl.
  destruct (bus s) as [b|]; [|eauto].
  unfold bind at 1, getattr_unbound at 1; simpl.
  destruct (ce s) as [c|]; [|eauto].
  unfold bind at 1, spidev_open; simpl.
  destruct (spi_open (spi w) b c) as [t'|].
  - erewrite bind_Raise by (apply _writeRegister_flag_clear; exact Hi).
    eexists _, _; split; [reflexivity|]. simpl.
    rewrite transfers_app; simpl. rewrite app_nil_r. exact Htr.
  - eexists _, _; split; [reflexivity|]. simpl.
    rewrite transfers_app; simpl. rewrite app_nil_r. exact Htr.
Qed.

End Uninitialised.

Lemma bank_bit_nonneg pin : 0 <= pin -> (bank_bit pin <? 0) = false.
Proof.
  intros Hp. unfold bank_bit. destruct (pin <? 8); [lia|].
  apply Z.ltb_ge, Z.land_nonneg. now right.
Qed.

Lemma bank_bit_land pin : 0 <= pin < 16 -> bank_bit pin = Z.land pin 0x07.
Proof.
  intros Hp. unfold bank_bit. destruct (pin <? 8) eqn:E; [|reflexivity].
  change 7 with (Z.ones 3). rewrite Z.land_ones by lia.
  symmetry; apply Z.mod_small. change (2 ^ 3) with 8. lia.
Qed.

Lemma land_bit_testbit v n :
  0 <= n -> negb (Z.land v (Z.shiftl 1 n) =? 0) = Z.testbit v n.
Proof.
  intros Hn. rewrite Z.shiftl_1_l.
  destruct (Z.testbit v n) eqn:E.
  - apply negb_true_iff, Z.eqb_neq. intros H0.
    assert (Hb : Z.testbit (Z.land v (2 ^ n)) n = true).
    { rewrite Z.land_spec, E, Z.pow2_bits_true by lia. reflexivity. }
    rewrite H0, Z.bits_0 in Hb. discriminate.
  - apply negb_false_iff, Z.eqb_eq, Z.bits_inj'. intros m Hm.
    rewrite Z.land_spec, Z.bits_0, Z.pow2_bits_eqb by lia.
    destruct (Z.eqb_spec n m) as [->|]; [now rewrite E | apply andb_false_r].
Qed.

Lemma land_byte_range data : 0 <= Z.land data 0xFF <= 255.
Proof.
  replace (Z.land data 0xFF) with (data mod 256).
  - pose proof (Z.mod_pos_bound data 256 eq_refl). lia.
  - symmetry. apply (Z.land_ones data 8). lia.
Qed.

Lemma with_bit_idem b data bit :
  with_bit b (with_bit b data bit) bit = with_bit b data bit.
Proof.
  unfold with_bit. destruct b.
  - now rewrite <- Z.lor_assoc, Z.lor_diag.
  - now rewrite <- Z.land_assoc, Z.land_diag.
Qed.

Lemma word_of_bytes data :
  Z.lor (Z.shiftl (Z.shiftr data 8) 8) (Z.land data 0xFF) = data.
Proof.
  apply Z.bits_inj'. intros n Hn.
  rewrite Z.lor_spec. change 255 with (Z.ones 8).
  destruct (Z.ltb_spec n 8).
  - rewrite Z.shiftl_spec_low, Z.land_spec, Z.ones_spec_low by lia.
    simpl. apply andb_true_r.
  - rewrite Z.shiftl_spec, Z.shiftr_spec, Z.land_spec, Z.ones_spec_high by lia.
    rewrite andb_false_r, orb_false_r. f_equal; lia.
Qed.

Section PinWrites.
Context {T : Type} `{SpiDev T}.
Implicit Types (s : MCP23S17) (w : world T).

Lemma _writeRegister_frame_ok s w cs register value t' resp :
  ready cs (s, w) ->
  spi_xfer2 (spi w) (write_frame s register value) = Some (t', resp) ->
  _writeRegister register value (s, w) =
    (Return tt,
     (s, World t' (spi_mode w)
           (trace w ++ transaction cs (write_frame s register value)))).
Proof. apply _writeRegister_ok. Qed.

Ltac pin_write_prelude Hr Hp Hm :=
  let Hi := fresh "Hi" in
  pose proof Hr as (Hi & _ & _); simpl in Hi;
  pose proof (bank_bit_nonneg _ (proj1 Hp));
  unfold bind at 1, assert at 1;
  replace (_ <? 16) with true by lia; simpl;
  unfold bind at 1, assert at 1;
  match goal with
  | |- context [(?a =? ?x) || (?a =? ?y)] =>
      replace ((a =? x) || (a =? y)) with true by (destruct Hm; subst; reflexivity)
  end; simpl;
  unfold bind at 1, getattr at 1; simpl;
  unfold bind at 1; rewrite Hi; simpl;
  unfold address, shadow, set_shadow, bank_bit, with_bit, write_frame in *.

Ltac pin_write_branch :=
  unfold bind at 1, getattr at 1, ret at 1; simpl;
  unfold bind at 1, bind at 1, lshift, ret;
  match goal with Hb : (_ <? 0) = false |- _ => rewrite Hb end; simpl.

Lemma setPullupMode_ok s w cs pin mode t' resp :
  ready cs (s, w) ->
  0 <= pin < 16 ->
  mode = PULLUP_ENABLED \/ mode = PULLUP_DISABLED ->
  let data := with_bit (mode =? PULLUP_ENABLED) (shadow GPPU pin s) (bank_bit pin) in
  spi_xfer2 (spi w) (write_frame s (address GPPU pin) data) = Some (t', resp) ->
  setPullupMode pin mode (s, w) =
    (Return tt,
     (set_shadow GPPU pin data s,
      World t' (spi_mode w)
        (trace w ++ transaction cs (write_frame s (address GPPU pin) data)))).
Proof.
  intros Hr Hp Hm data Hx; subst data. unfold setPullupMode.
  pin_write_prelude Hr Hp Hm.
  destruct (pin <? 8); destruct (mode =? PULLUP_ENABLED); pin_write_branch;
    (erewrite bind_Return by (eapply _writeRegister_ok; eassumption));
    reflexivity.
Qed.

Lemma setPullupMode_fail s w cs pin mode :
  ready cs (s, w) ->
  0 <= pin < 16 ->
  mode = PULLUP_ENABLED \/ mode = PULLUP_DISABLED ->
  let data := with_bit (mode =? PULLUP_ENABLED) (shadow GPPU pin s) (bank_bit pin) in
  spi_xfer2 (spi w) (write_frame s (address GPPU pin) data) = None ->
  exists w', setPullupMode pin mode (s, w) = (Raise IOError, (s, w')).
Proof.
  intros Hr Hp Hm data Hx; subst data. unfold setPullupMode.
  pin_write_prelude Hr Hp Hm.
  destruct (pin <? 8); destruct (mode =? PULLUP_ENABLED); pin_write_branch;
    (erewrite bind_Raise by (eapply _writeRegister_fail; eassumption));
    eauto.
Qed.

Lemma setDirection_ok s w cs pin direction t' resp :
  ready cs (s, w) ->
  0 <= pin < 16 ->
  direction = DIR_INPUT \/ direction = DIR_OUTPUT ->
  let data := with_bit (direction =? DIR_INPUT) (shadow IODIR pin s) (bank_bit pin) in
  spi_xfer2 (spi w) (write_frame s (address IODIR pin) data) = Some (t', resp) ->
  setDirection pin direction (s, w) =
    (Return tt,
     (set_shadow IODIR pin data s,
      World t' (spi_mode w)
        (trace w ++ transaction cs (write_frame s (address IODIR pin) data)))).
Proof.
  intros Hr Hp Hm data Hx; subst data. unfold setDirection.
  pin_write_prelude Hr Hp Hm.
  destruct (pin <? 8); destruct (direction =? DIR_INPUT); pin_write_branch;
    (erewrite bind_Return by (eapply _writeRegister_ok; eassumption));
    reflexivity.
Qed.

Lemma setDirection_fail s w cs pin direction :
  ready cs (s, w) ->
  0 <= pin < 16 ->
  direction = DIR_INPUT \/ direction = DIR_OUTPUT ->
  let data := with_bit (direction =? DIR_INPUT) (shadow IODIR pin s) (bank_bit pin) in
  spi_xfer2 (spi w) (write_frame s (address IODIR pin) data) = None ->
  exists w', setDirection pin direction (s, w) = (Raise IOError, (s, w')).
Proof.
  intros Hr Hp Hm data Hx; subst data. unfold setDirection.
  pin_write_prelude Hr Hp Hm.
  destruct (pin <? 8); destruct (direction =? DIR_INPUT); pin_write_branch;
    (erewrite bind_Raise by (eapply _writeRegister_fail; eassumption));
    eauto.
Qed.

End PinWrites.

Section PortAccess.
Context {T : Type} `{SpiDev T}.
Implicit Types (s : MCP23S17) (w : world T).

Lemma digitalWrite_ok s w cs pin level t' resp :
  ready cs (s, w) ->
  0 <= pin < 16 ->
  level = LEVEL_HIGH \/ level = LEVEL_LOW ->
  let data := with_bit (level =? LEVEL_HIGH) (shadow GPIO pin s) (bank_bit pin) in
  spi_xfer2 (spi w) (write_frame s (address GPIO pin) data) = Some (t', resp) ->
  digitalWrite pin level (s, w) =
    (Return tt,
     (set_shadow GPIO pin data s,
      World t' (spi_mode w)
        (trace w ++ transaction cs (write_frame s (address GPIO pin) data)))).
Proof.
  intros Hr Hp Hl data Hx; subst data.
  pose proof Hr as (Hi & _ & _); simpl in Hi.
  pose proof (bank_bit_nonneg _ (proj1 Hp)) as Hb.
  unfold digitalWrite.
  unfold bind at 1, getattr at 1; simpl.
  unfold bind at 1; rewrite Hi; simpl.
  unfold bind at 1, assert at 1. replace (pin <? 16) with true by lia; simpl.
  unfold bind at 1, assert at 1.
  replace ((level =? LEVEL_HIGH) || (level =? LEVEL_LOW)) with true
    by (destruct Hl; subst; reflexivity); simpl.
  unfold address, shadow, set_shadow, bank_bit, with_bit, write_frame in *.
  destruct (pin <? 8); destruct (level =? LEVEL_HIGH);
    unfold bind at 1, getattr at 1, ret at 1; simpl;
    unfold bind at 1, bind at 1, lshift, ret; rewrite Hb; simpl;
    (erewrite bind_Return by (eapply _writeRegister_ok; eassumption));
    reflexivity.
Qed.

Lemma digitalWrite_fail s w cs pin level :
  ready cs (s, w) ->
  0 <= pin < 16 ->
  level = LEVEL_HIGH \/ level = LEVEL_LOW ->
  let data := with_bit (level =? LEVEL_HIGH) (shadow GPIO pin s) (bank_bit pin) in
  spi_xfer2 (spi w) (write_frame s (address GPIO pin) data) = None ->
  exists w', digitalWrite pin level (s, w) = (Raise IOError, (s, w')).
Proof.
  intros Hr Hp Hl data Hx; subst data.
  pose proof Hr as (Hi & _ & _); simpl in Hi.
  pose proof (bank_bit_nonneg _ (proj1 Hp)) as Hb.
  unfold digitalWrite.
  unfold bind at 1, getattr at 1; simpl.
  unfold bind at 1; rewrite Hi; simpl.
  unfold bind at 1, assert at 1. replace (pin <? 16) with true by lia; simpl.
  unfold bind at 1, assert at 1.
  replace ((level =? LEVEL_HIGH) || (level =? LEVEL_LOW)) with true
    by (destruct Hl; subst; reflexivity); simpl.
  unfold address, shadow, set_shadow, bank_bit, with_bit, write_frame in *.
  destruct (pin <? 8); destruct (level =? LEVEL_HIGH);
    unfold bind at 1, getattr at 1, ret at 1; simpl;
    unfold bind at 1, bind at 1, lshift, ret; rewrite Hb; simpl;
    (erewrite bind_Raise by (eapply _writeRegister_fail; eassumption));
    eauto.
Qed.

Lemma digitalRead_ok s w cs pin t' resp v :
  ready cs (s, w) ->
  0 <= pin < 16 ->
  spi_xfer2 (spi w) (read_frame s (address GPIO pin)) = Some (t', resp) ->
  nth_error resp 2 = Some v ->
  digitalRead pin (s, w) =
    (Return (if Z.testbit v (Z.land pin 0x07) then LEVEL_HIGH else LEVEL_LOW),
     (set_shadow GPIO pin v s,
      World t' (spi_mode w)
        (trace w ++ transaction cs (read_frame s (address GPIO pin))))).
Proof.
  intros Hr Hp Hx Hv.
  pose proof Hr as (Hi & _ & _); simpl in Hi.
  pose proof (bank_bit_nonneg _ (proj1 Hp)) as Hb.
  rewrite <- (bank_bit_land pin Hp).
  rewrite <- (land_bit_testbit v (bank_bit pin))
    by (apply Z.ltb_ge; exact Hb).
  unfold digitalRead.
  unfold bind at 1, getattr at 1; simpl.
  unfold bind at 1; rewrite Hi; simpl.
  unfold bind at 1, assert at 1. replace (pin <? 16) with true by lia; simpl.
  unfold address, shadow, set_shadow, bank_bit, read_frame in *.
  destruct (pin <? 8);
    (erewrite bind_Return by (eapply _readRegister_ok; eassumption));
    unfold bind, setattr, getattr, lshift, ret; simpl; rewrite Hb; simpl;
    match goal with |- context [negb ?c] => destruct (negb c) end; reflexivity.
Qed.

(** [writeGPIO] assigns both shadows before it touches the bus. *)
Lemma writeGPIO_unfold s w data :
  isInitialized s = true ->
  writeGPIO data (s, w) =
    _writeRegisterWord MCP23S17_GPIOA data
      (set_GPIOB (Z.shiftr data 8) (set_GPIOA (Z.land data 0xFF) s), w).
Proof.
  intros Hi. unfold writeGPIO, bind, getattr, assert, setattr; simpl.
  now rewrite Hi.
Qed.

Lemma _writeRegisterWord_unfold s w register data :
  isInitialized s = true ->
  _writeRegisterWord register data (s, w) =
    (_writeRegister register (Z.land data 0xFF) ;;
     _writeRegister (register + 1) (Z.shiftr data 8)) (s, w).
Proof.
  intros Hi. unfold _writeRegisterWord.
  unfold bind at 1, getattr at 1; simpl.
  unfold bind at 1. now rewrite Hi.
Qed.

Lemma ready_shadows cs s w a b :
  ready cs (s, w) -> ready cs (set_GPIOB b (set_GPIOA a s), w).
Proof. intros Hr; exact Hr. Qed.

Lemma ready_transport cs s w (t' : T) tr :
  ready cs (s, w) -> ready cs (s, World t' (spi_mode w) tr).
Proof. intros Hr; exact Hr. Qed.

Lemma writeGPIO_ok s w cs data t1 r1 t2 r2 :
  ready cs (s, w) ->
  spi_xfer2 (spi w) (write_frame s MCP23S17_GPIOA (Z.land data 0xFF)) = Some (t1, r1) ->
  spi_xfer2 t1 (write_frame s MCP23S17_GPIOB (Z.shiftr data 8)) = Some (t2, r2) ->
  writeGPIO data (s, w) =
    (Return tt,
     (set_GPIOB (Z.shiftr data 8) (set_GPIOA (Z.land data 0xFF) s),
      World t2 (spi_mode w)
        (trace w ++
         transaction cs (write_frame s MCP23S17_GPIOA (Z.land data 0xFF)) ++
         transaction cs (write_frame s MCP23S17_GPIOB (Z.shiftr data 8))))).
Proof.
  intros Hr H1 H2. pose proof Hr as (Hi & _ & _); simpl in Hi.
  rewrite writeGPIO_unfold, _writeRegisterWord_unfold by exact Hi.
  erewrite bind_Return
    by (eapply _writeRegister_frame_ok;
        [apply ready_shadows, Hr | exact H1]).
  erewrite _writeRegister_frame_ok;
    [ | apply ready_transport, ready_shadows, Hr | exact H2 ].
  simpl. now rewrite <- app_assoc.
Qed.

Lemma readGPIO_ok s w cs t1 r1 v0 t2 r2 v1 :
  ready cs (s, w) ->
  spi_xfer2 (spi w) (read_frame s MCP23S17_GPIOA) = Some (t1, r1) ->
  nth_error r1 2 = Some v0 ->
  spi_xfer2 t1 (read_frame s MCP23S17_GPIOB) = Some (t2, r2) ->
  nth_error r2 2 = Some v1 ->
  let data := Z.lor (Z.shiftl v1 8) v0 in
  readGPIO (s, w) =
    (Return data,
     (set_GPIOB (Z.shiftr data 8) (set_GPIOA (Z.land data 0xFF) s),
      World t2 (spi_mode w)
        (trace w ++
         transaction cs (read_frame s MCP23S17_GPIOA) ++
         transaction cs (read_frame s MCP23S17_GPIOB)))).
Proof.
  intros Hr H1 Hv0 H2 Hv1 data; subst data.
  pose proof Hr as (Hi & _ & _); simpl in Hi.
  unfold readGPIO.
  unfold bind at 1, getattr at 1; simpl.
  unfold bind at 1; rewrite Hi; simpl.
  unfold _readRegisterWord.
  unfold bind at 1, bind at 1, getattr at 1; simpl.
  unfold bind at 1; rewrite Hi; simpl.
  erewrite bind_Return by (eapply _readRegister_ok; eassumption).
  erewrite bind_Return
    by (eapply _readRegister_ok; [apply ready_transport, Hr | exact H2 | exact Hv1]).
  unfold ret, bind, setattr; simpl. now rewrite <- app_assoc.
Qed.

End PortAccess.

Section ShadowFacts.
Implicit Types (s : MCP23S17) (f : regpair).

Lemma shadow_set_shadow f pin v s : shadow f pin (set_shadow f pin v s) = v.
Proof. destruct f; simpl; destruct (pin <? 8); reflexivity. Qed.

Lemma set_shadow_twice f pin v v' s :
  set_shadow f pin v' (set_shadow f pin v s) = set_shadow f pin v' s.
Proof. destruct f; simpl; destruct (pin <? 8); reflexivity. Qed.

Lemma write_frame_set_shadow f pin v s register value :
  write_frame (set_shadow f pin v s) register value = write_frame s register value.
Proof. destruct f; simpl; destruct (pin <? 8); reflexivity. Qed.

Lemma ready_set_shadow {T} cs f pin v s (w : world T) :
  ready cs (s, w) -> ready cs (set_shadow f pin v s, w).
Proof. intros Hr. destruct f; simpl; destruct (pin <? 8); exact Hr. Qed.

End ShadowFacts.

Section ReadPrimitive.
Context {T : Type} `{SpiDev T}.
Implicit Types (s : MCP23S17) (w : world T).

Lemma _readRegister_run s w cs register :
  ready cs (s, w) ->
  _readRegister register (s, w) =
    match spi_xfer2 (spi w) (read_frame s register) with
    | Some (t', resp) =>
        (match nth_error resp 2 with
         | Some v => Return v
         | None => Raise IndexError
         end,
         (s, World t' (spi_mode w)
               (trace w ++ transaction cs (read_frame s register))))
    | None =>
        (Raise IOError,
         (s, World (spi w) (spi_mode w)
               (trace w ++ [GPIO_output cs false; SPI_xfer2 (read_frame s register)])))
    end.
Proof.
  intros (Hi & Hcs & Hm); simpl in *.
  unfold _readRegister, bind at 1, getattr at 1; simpl.
  rewrite Hi; unfold bind at 1; simpl.
  unfold bind at 1, getattr at 1; simpl.
  unfold bind at 1, getattr at 1; simpl.
  rewrite <- Hm. unfold bind at 1. rewrite _setSpiMode_same.
  unfold bind, getattr_unbound, emit, xfer2, read_frame; simpl.
  rewrite Hcs; simpl.
  destruct (spi_xfer2 _ _) as [[t' resp]|]; simpl.
  - rewrite Hcs; simpl. unfold transaction, ret, raise, log; simpl.
    rewrite <- ?app_assoc.
    destruct resp as [|? [|? [|? ?]]]; reflexivity.
  - unfold log; simpl. now rewrite <- ?app_assoc.
Qed.

Lemma _writeRegister_run s w cs register value :
  ready cs (s, w) ->
  _writeRegister register value (s, w) =
    match spi_xfer2 (spi w) (write_frame s register value) with
    | Some (t', _) =>
        (Return tt,
         (s, World t' (spi_mode w)
               (trace w ++ transaction cs (write_frame s register value))))
    | None =>
        (Raise IOError,
         (s, World (spi w) (spi_mode w)
               (trace w ++
                [GPIO_output cs false; SPI_xfer2 (write_frame s register value)])))
    end.
Proof.
  intros Hr.
  destruct (spi_xfer2 _ _) as [[t' resp]|] eqn:E.
  - now apply _writeRegister_ok with (resp := resp).
  - now apply _writeRegister_fail.
Qed.

End ReadPrimitive.

(** ** The shadows and the bus in [writeGPIO] *)

Section WriteOrder.
Context {T : Type} `{SpiDev T}.
Implicit Types (s : MCP23S17) (w : world T).

(** The register primitive never assigns an attribute, however it ends. *)
Lemma _writeRegister_self s w register value :
  fst (snd (_writeRegister register value (s, w))) = s.
Proof.
  unfold _writeRegister, _setSpiMode, bind, assert, getattr, getattr_unbound,
    emit, xfer2, spidev_mode, spidev_set_mode, ret, raise; simpl.
  repeat case_match; simplify_eq/=; reflexivity.
Qed.

(** So the attributes after [writeGPIO] are the ones it assigned before the
    first transfer, whether the transfers succeeded or not. *)
Lemma writeGPIO_shadows_first s w data :
  isInitialized s = true ->
  fst (snd (writeGPIO data (s, w))) =
    set_GPIOB (Z.shiftr data 8) (set_GPIOA (Z.land data 0xFF) s).
Proof.
  intros Hi. rewrite writeGPIO_unfold, _writeRegisterWord_unfold by exact Hi.
  set (s' := set_GPIOB _ _).
  unfold bind.
  destruct (_writeRegister MCP23S17_GPIOA (Z.land data 255) (s', w))
    as [[[]|e] [s1 w1]] eqn:E1.
  - pose proof (_writeRegister_self s' w MCP23S17_GPIOA (Z.land data 255)) as H1.
    rewrite E1 in H1; simpl in H1; subst s1.
    apply _writeRegister_self.
  - pose proof (_writeRegister_self s' w MCP23S17_GPIOA (Z.land data 255)) as H1.
    rewrite E1 in H1; simpl in H1; now subst s1.
Qed.

End WriteOrder.

(** The initial configuration byte is the two documented flags. *)
Lemma IOCON_INIT_flags : IOCON_INIT = Z.lor IOCON_SEQOP IOCON_HAEN.
Proof. reflexivity. Qed.

(** ** Range checks *)

Section RangeChecks.
Context {T : Type} `{SpiDev T}.
Implicit Types (s : MCP23S17) (w : world T).

(** The only range check is [assert pin < 16]: it rejects what lies above
    the pin space and leaves the state alone. *)
Lemma pin_above_range_faults s w pin :
  15 < pin ->
  isInitialized s = true ->
  (forall mode, setPullupMode pin mode (s, w) = (Raise AssertionError, (s, w))) /\
  (forall direction, setDirection pin direction (s, w) = (Raise AssertionError, (s, w))) /\
  digitalRead pin (s, w) = (Raise AssertionError, (s, w)) /\
  (forall level, digitalWrite pin level (s, w) = (Raise AssertionError, (s, w))).
Proof.
  intros Hp Hi. assert (H16 : (pin <? 16) = false) by lia.
  repeat split; intros.
  - unfold setPullupMode, bind, assert; now rewrite H16.
  - unfold setDirection, bind, assert; now rewrite H16.
  - unfold digitalRead, bind, assert, getattr; simpl. now rewrite Hi, H16.
  - unfold digitalWrite, bind, assert, getattr; simpl. now rewrite Hi, H16.
Qed.

(** A negative pin passes that check.  The three writers then stop at
    [1 << noshifts] with [ValueError], before any transfer. *)
Lemma pin_below_range_writers s w pin :
  pin < 0 ->
  isInitialized s = true ->
  setPullupMode pin PULLUP_ENABLED (s, w) = (Raise ValueError, (s, w)) /\
  setDirection pin DIR_INPUT (s, w) = (Raise ValueError, (s, w)) /\
  digitalWrite pin LEVEL_HIGH (s, w) = (Raise ValueError, (s, w)).
Proof.
  intros Hp Hi.
  assert (H16 : (pin <? 16) = true) by lia.
  assert (H8 : (pin <? 8) = true) by lia.
  assert (H0 : (pin <? 0) = true) by lia.
  repeat split.
  - unfold setPullupMode, bind, assert, getattr, lshift, ret, raise; simpl.
    repeat (first [rewrite H16 | rewrite Hi | rewrite H8 | rewrite H0]; simpl).
    reflexivity.
  - unfold setDirection, bind, assert, getattr, lshift, ret, raise; simpl.
    repeat (first [rewrite H16 | rewrite Hi | rewrite H8 | rewrite H0]; simpl).
    reflexivity.
  - unfold digitalWrite, bind, assert, getattr, lshift, ret, raise; simpl.
    repeat (first [rewrite H16 | rewrite Hi | rewrite H8 | rewrite H0]; simpl).
    reflexivity.
Qed.

End RangeChecks.

(** With every attribute bound and the flag set beforehand, [open] does run to
    the end on the echo chip, and its loop over [range(0, 15)] leaves pin 15
    alone: 31 writes, and bit 7 of both bank-B shadows still clear. *)
Lemma open_defaults_skip_pin_15 :
  let r := open (patched (__init__ 0 0 (-1) 0) 0 0 24, fresh_world (EchoChip ∅)) in
  fst r = Return tt /\
  length (transfers (trace (snd (snd r)))) = 31%nat /\
  _IODIRA (fst (snd r)) = 0xFF /\ _GPPUA (fst (snd r)) = 0xFF /\
  _IODIRB (fst (snd r)) = 0x7F /\ _GPPUB (fst (snd r)) = 0x7F.
Proof. vm_compute. repeat split. Qed.

(** * Properties of the specification *)

(** C1 (defect in the code).  [open()] on a freshly constructed driver does
    not complete: right after [_setupGPIO] it reads [self.bus], which the
    constructor never binds, and raises [AttributeError]; the bus is not
    acquired, no register is written and [isInitialized] is still [False].
    With [bus], [ce] and [_PIN_MCP_CS] bound by the caller it still raises,
    at the latest in the first [_writeRegister], and still neither transfers
    a byte nor sets the flag. *)
Theorem open_on_fresh_driver {T} `{SpiDev T} (b c r d : Z) (w : world T) :
  open (__init__ b c r d, w) =
    (Raise (AttributeError "bus"),
     (__init__ b c r d,
      World (spi w) (spi_mode w) (trace w ++ setup_events r))) /\
  isInitialized (__init__ b c r d) = false /\
  transfers (setup_events r) = [] /\
  (forall b' c' cs',
     exists e w',
       open (with_attrs (__init__ b c r d) b' c' cs', w) =
         (Raise e, (with_attrs (__init__ b c r d) b' c' cs', w')) /\
       transfers (trace w') = transfers (trace w)).
Proof.
  split; [now apply open_bus_unbound|]. split; [reflexivity|]. split.
  - unfold setup_events. now destruct (negb (r =? -1)).
  - intros. now apply open_flag_clear.
Qed.

(** C2 (defect in the code).  [open()] on a driver constructed with device
    address 0 issues no register write at all, not 33, and leaves the
    direction and pull-up shadows at 0, not 0xFF; binding the missing
    attributes from outside does not change that. *)
Theorem open_default_configuration {T} `{SpiDev T} (b c r : Z) (w : world T) :
  (let st := snd (open (__init__ b c r 0, w)) in
   transfers (trace (snd st)) = transfers (trace w) /\
   _IODIRA (fst st) = 0 /\ _IODIRB (fst st) = 0 /\
   _GPPUA (fst st) = 0 /\ _GPPUB (fst st) = 0) /\
  (forall b' c' cs',
     let st := snd (open (with_attrs (__init__ b c r 0) b' c' cs', w)) in
     transfers (trace (snd st)) = transfers (trace w) /\
     _IODIRA (fst st) = 0 /\ _IODIRB (fst st) = 0 /\
     _GPPUA (fst st) = 0 /\ _GPPUB (fst st) = 0).
Proof.
  split.
  - rewrite open_bus_unbound by reflexivity. simpl.
    repeat split. rewrite transfers_app.
    unfold setup_events. destruct (negb (r =? -1)); simpl; now rewrite app_nil_r.
  - intros b' c' cs'.
    destruct (open_flag_clear (with_attrs (__init__ b c r 0) b' c' cs') w eq_refl)
      as (e & w' & E & Htr).
    rewrite E. simpl. repeat split. exact Htr.
Qed.

(** C3 (defect in the code).  [writeGPIO(0x1234)] on a bus that
    fails on the second byte: the call ends in the transport's error, yet both
    port shadows already hold the bytes of the full word. *)
Theorem writeGPIO_failed_second_byte :
  let s := patched (__init__ 0 0 (-1) 0) 0 0 24 in
  let r := writeGPIO 0x1234 (s, fresh_world (FlakyBus 1)) in
  fst r = Raise IOError /\
  transfers (trace (snd (snd r))) = [[0x40; 0x12; 0x34]; [0x40; 0x13; 0x12]] /\
  _GPIOA s = 0 /\ _GPIOB s = 0 /\
  _GPIOA (fst (snd r)) = 0x34 /\ _GPIOB (fst (snd r)) = 0x12.
Proof. vm_compute. repeat split. Qed.

(** C4 (defect in the code).  [digitalRead(-1)] on an
    initialized driver is not stopped by an assertion: it reads port A over
    the bus, overwrites the port-A shadow and only then fails, with
    [ValueError] from [1 << -1]. *)
Theorem digitalRead_negative_pin :
  let s := patched (__init__ 0 0 (-1) 0) 0 0 24 in
  let r := digitalRead (-1) (s, fresh_world (EchoChip {[ 0x12 := 0xAB ]})) in
  fst r = Raise ValueError /\
  transfers (trace (snd (snd r))) = [[0x41; 0x12; 0]] /\
  _GPIOA s = 0 /\ _GPIOA (fst (snd r)) = 0xAB.
Proof. vm_compute. repeat split. Qed.

(** C5.  [digitalRead(pin)] with the flag set and [pin] in [0,15]: whatever
    the shadows hold, one read frame for the owning bank's port register goes
    to the bus; the byte at response index 2 becomes that bank's shadow, the
    other bank's shadow stays, and the result is [LEVEL_HIGH] exactly when bit
    [pin & 0x07] of that byte is set. *)
Theorem digitalRead_fresh_read {T} `{SpiDev T}
    (s : MCP23S17) (w : world T) (cs pin : Z) (t' : T) (resp : list Z) (v : Z) :
  ready cs (s, w) ->
  0 <= pin < 16 ->
  spi_xfer2 (spi w) (read_frame s (address GPIO pin)) = Some (t', resp) ->
  nth_error resp 2 = Some v ->
  let r := digitalRead pin (s, w) in
  fst r = Return (if Z.testbit v (Z.land pin 0x07) then LEVEL_HIGH else LEVEL_LOW) /\
  trace (snd (snd r)) = trace w ++ transaction cs (read_frame s (address GPIO pin)) /\
  fst (snd r) = set_shadow GPIO pin v s /\
  (if pin <? 8
   then _GPIOA (fst (snd r)) = v /\ _GPIOB (fst (snd r)) = _GPIOB s
   else _GPIOB (fst (snd r)) = v /\ _GPIOA (fst (snd r)) = _GPIOA s).
Proof.
  intros Hr Hp Hx Hv r; subst r.
  rewrite (digitalRead_ok s w cs pin t' resp v Hr Hp Hx Hv). simpl.
  repeat split; destruct (pin <? 8); split; reflexivity.
Qed.

Lemma digitalRead_fresh_read_witness :
  let s := patched (__init__ 0 0 (-1) 0) 0 0 24 in
  let w := fresh_world (EchoChip {[ 0x13 := 0x04 ]}) in
  ready 24 (s, w) /\
  fst (digitalRead 10 (s, w)) = Return LEVEL_HIGH /\
  _GPIOB (fst (snd (digitalRead 10 (s, w)))) = 0x04.
Proof.
  intros s w. split; [repeat split|].
  destruct (digitalRead_fresh_read s w 24 10 (spi w) [0; 0; 0x04] 0x04)
    as (Hout & _ & _ & Hb & _).
  - repeat split.
  - lia.
  - reflexivity.
  - reflexivity.
  - split; [exact Hout | exact Hb].
Defined.

(** C6.  On the echo chip, [writeGPIO(w)] followed by [readGPIO()] returns [w]
    for every 16-bit [w]; the four transfers are the low byte at the port
    register, the high byte at the register after it, then the two reads in
    the same order, whose bytes [readGPIO] joins as high:low. *)
Theorem writeGPIO_readGPIO_echo
    (s : MCP23S17) (w : world echo_chip) (cs data : Z) :
  ready cs (s, w) ->
  0 <= data < 65536 ->
  exists st1 st2,
    writeGPIO data (s, w) = (Return tt, st1) /\
    readGPIO st1 = (Return data, st2) /\
    transfers (trace (snd st2)) =
      transfers (trace w) ++
      [write_frame s MCP23S17_GPIOA (Z.land data 0xFF);
       write_frame s (MCP23S17_GPIOA + 1) (Z.shiftr data 8);
       read_frame s MCP23S17_GPIOA;
       read_frame s (MCP23S17_GPIOA + 1)].
Proof.
  intros Hr Hd.
  assert (Hw : Z.testbit (Z.lor MCP23S17_CMD_WRITE (Z.shiftl (deviceID s) 1)) 0 = false).
  { rewrite Z.lor_spec, Z.shiftl_spec_low by lia. reflexivity. }
  assert (Hrd : Z.testbit (Z.lor MCP23S17_CMD_READ (Z.shiftl (deviceID s) 1)) 0 = true).
  { rewrite Z.lor_spec, Z.shiftl_spec_low by lia. reflexivity. }
  assert (Hlo : Z.land (Z.land data 0xFF) 0xFF = Z.land data 0xFF).
  { now rewrite <- Z.land_assoc, Z.land_diag. }
  assert (Hhi : Z.land (Z.shiftr data 8) 0xFF = Z.shiftr data 8).
  { change 255 with (Z.ones 8). rewrite Z.land_ones, Z.shiftr_div_pow2 by lia.
    apply Z.mod_small. change (2 ^ 8) with 256. split.
    - apply Z.div_pos; lia.
    - apply Z.div_lt_upper_bound; lia. }
  rewrite Z.bit0_odd in Hw, Hrd.
  set (regs1 := <[MCP23S17_GPIOA := Z.land data 0xFF]> (regs (spi w))).
  set (regs2 := <[MCP23S17_GPIOB := Z.shiftr data 8]> regs1).
  eexists _, _. split; [|split].
  - apply writeGPIO_ok with (cs := cs) (t1 := EchoChip regs1) (r1 := [0; 0; 0])
                            (t2 := EchoChip regs2) (r2 := [0; 0; 0]);
      [exact Hr | | ]; unfold write_frame; simpl.
    + rewrite Hw. subst regs1. now rewrite Hlo.
    + rewrite Hw. subst regs2; simpl. now rewrite Hhi.
  - match goal with |- readGPIO (?s1, ?w1) = _ =>
      rewrite (readGPIO_ok s1 w1 cs (EchoChip regs2) [0; 0; Z.land data 0xFF]
                 (Z.land data 0xFF) (EchoChip regs2) [0; 0; Z.shiftr data 8]
                 (Z.shiftr data 8))
    end.
    + cbv zeta. rewrite word_of_bytes. reflexivity.
    + exact Hr.
    + unfold read_frame; simpl. rewrite Hrd. subst regs2 regs1.
      rewrite lookup_insert_ne by discriminate. now rewrite lookup_insert_eq.
    + reflexivity.
    + unfold read_frame; simpl. rewrite Hrd. subst regs2.
      now rewrite lookup_insert_eq.
    + reflexivity.
  - simpl. rewrite !transfers_app. simpl. now rewrite <- app_assoc.
Qed.

Lemma writeGPIO_readGPIO_echo_witness :
  let s := patched (__init__ 0 0 (-1) 1) 0 0 24 in
  let w := fresh_world (EchoChip ∅) in
  ready 24 (s, w) /\ 0 <= 0xBEEF < 65536 /\
  exists st1 st2,
    writeGPIO 0xBEEF (s, w) = (Return tt, st1) /\
    readGPIO st1 = (Return 0xBEEF, st2) /\
    transfers (trace (snd st2)) =
      [[0x42; 0x12; 0xEF]; [0x42; 0x13; 0xBE]; [0x43; 0x12; 0]; [0x43; 0x13; 0]].
Proof.
  intros s w. split; [repeat split|]. split; [lia|].
  apply (writeGPIO_readGPIO_echo s w 24 0xBEEF); [repeat split | lia].
Defined.

(** C7.  [setPullupMode(p, PULLUP_ENABLED)] twice in a row, [p] in [0,15]:
    both calls put the same write frame on the bus, and the driver's
    attributes after the second call are those after the first. *)
Theorem setPullupMode_twice {T} `{SpiDev T}
    (s : MCP23S17) (w : world T) (cs pin : Z) (t1 t2 : T) (r1 r2 : list Z) :
  ready cs (s, w) ->
  0 <= pin < 16 ->
  let frame :=
    write_frame s (address GPPU pin)
      (with_bit true (shadow GPPU pin s) (bank_bit pin)) in
  spi_xfer2 (spi w) frame = Some (t1, r1) ->
  spi_xfer2 t1 frame = Some (t2, r2) ->
  exists st1 st2,
    setPullupMode pin PULLUP_ENABLED (s, w) = (Return tt, st1) /\
    setPullupMode pin PULLUP_ENABLED st1 = (Return tt, st2) /\
    trace (snd st1) = trace w ++ transaction cs frame /\
    trace (snd st2) = trace (snd st1) ++ transaction cs frame /\
    fst st2 = fst st1.
Proof.
  intros Hr Hp frame H1 H2.
  set (data := with_bit true (shadow GPPU pin s) (bank_bit pin)) in *.
  exists (set_shadow GPPU pin data s,
          World t1 (spi_mode w) (trace w ++ transaction cs frame)).
  exists (set_shadow GPPU pin data s,
          World t2 (spi_mode w) ((trace w ++ transaction cs frame) ++ transaction cs frame)).
  assert (Hframe : write_frame (set_shadow GPPU pin data s) (address GPPU pin)
                     (with_bit (PULLUP_ENABLED =? PULLUP_ENABLED)
                        (shadow GPPU pin (set_shadow GPPU pin data s)) (bank_bit pin))
                   = frame).
  { rewrite write_frame_set_shadow, shadow_set_shadow.
    change (PULLUP_ENABLED =? PULLUP_ENABLED) with true.
    subst data. now rewrite with_bit_idem. }
  split; [|split; [|repeat split]].
  - apply (setPullupMode_ok s w cs pin PULLUP_ENABLED t1 r1 Hr Hp);
      [now left | exact H1].
  - rewrite (setPullupMode_ok (set_shadow GPPU pin data s) _ cs pin PULLUP_ENABLED t2 r2).
    + rewrite Hframe. rewrite shadow_set_shadow.
      change (PULLUP_ENABLED =? PULLUP_ENABLED) with true.
      subst data. rewrite with_bit_idem, set_shadow_twice. reflexivity.
    + apply ready_set_shadow, Hr.
    + exact Hp.
    + now left.
    + cbv zeta. rewrite Hframe. exact H2.
Qed.

Lemma setPullupMode_twice_witness :
  let s := patched (__init__ 0 0 (-1) 0) 0 0 24 in
  let w := fresh_world (FlakyBus 2) in
  ready 24 (s, w) /\ 0 <= 9 < 16 /\
  exists st1 st2,
    setPullupMode 9 PULLUP_ENABLED (s, w) = (Return tt, st1) /\
    setPullupMode 9 PULLUP_ENABLED st1 = (Return tt, st2) /\
    trace (snd st1) = transaction 24 [0x40; 0x0D; 0x02] /\
    trace (snd st2) = trace (snd st1) ++ transaction 24 [0x40; 0x0D; 0x02] /\
    fst st2 = fst st1.
Proof.
  intros s w. split; [repeat split|]. split; [lia|].
  apply (setPullupMode_twice s w 24 9 (FlakyBus 1) (FlakyBus 0) [0; 0; 0] [0; 0; 0]);
    [repeat split | lia | reflexivity | reflexivity].
Defined.

(** C8.  With the flag set and the chip select bound, a register write hands
    the bus exactly the frame [command, register, value] and a register read
    exactly [command, register, 0], returning the byte at response index 2;
    the command bytes are [0x40 | (deviceID << 1)] and [0x41 | (deviceID << 1)],
    which for device address 1 are 0x42 and 0x43. *)
Theorem register_frames {T} `{SpiDev T}
    (s : MCP23S17) (w : world T) (cs register value : Z) :
  ready cs (s, w) ->
  transfers (trace (snd (snd (_writeRegister register value (s, w))))) =
    transfers (trace w) ++
    [[Z.lor 0x40 (Z.shiftl (deviceID s) 1); register; value]] /\
  transfers (trace (snd (snd (_readRegister register (s, w))))) =
    transfers (trace w) ++
    [[Z.lor 0x41 (Z.shiftl (deviceID s) 1); register; 0x00]] /\
  (forall t' resp,
     spi_xfer2 (spi w) [Z.lor 0x40 (Z.shiftl (deviceID s) 1); register; value]
       = Some (t', resp) ->
     fst (_writeRegister register value (s, w)) = Return tt) /\
  (forall t' resp,
     spi_xfer2 (spi w) [Z.lor 0x41 (Z.shiftl (deviceID s) 1); register; 0x00]
       = Some (t', resp) ->
     fst (_readRegister register (s, w)) =
       match nth_error resp 2 with
       | Some v => Return v
       | None => Raise IndexError
       end) /\
  (deviceID s = 0x01 ->
     Z.lor MCP23S17_CMD_WRITE (Z.shiftl (deviceID s) 1) = 0x42 /\
     Z.lor MCP23S17_CMD_READ (Z.shiftl (deviceID s) 1) = 0x43).
Proof.
  intros Hr.
  rewrite (_writeRegister_run s w cs register value Hr).
  rewrite (_readRegister_run s w cs register Hr).
  unfold write_frame, read_frame, MCP23S17_CMD_WRITE, MCP23S17_CMD_READ.
  repeat split.
  - destruct (spi_xfer2 _ _) as [[t' resp]|]; simpl;
      rewrite transfers_app; reflexivity.
  - destruct (spi_xfer2 _ _) as [[t' resp]|]; simpl;
      rewrite transfers_app; reflexivity.
  - intros t' resp E. now rewrite E.
  - intros t' resp E. now rewrite E.
  - now rewrite H0.
  - now rewrite H0.
Qed.

Lemma register_frames_witness :
  let s := patched (__init__ 0 0 (-1) 1) 0 0 24 in
  let w := fresh_world (EchoChip {[ 0x12 := 0x5A ]}) in
  ready 24 (s, w) /\
  transfers (trace (snd (snd (_writeRegister 0x0A 0x28 (s, w))))) = [[0x42; 0x0A; 0x28]] /\
  transfers (trace (snd (snd (_readRegister 0x12 (s, w))))) = [[0x43; 0x12; 0x00]].
Proof.
  intros s w. split; [repeat split|].
  split.
  - exact (proj1 (register_frames s w 24 0x0A 0x28
                    (conj eq_refl (conj eq_refl eq_refl)))).
  - exact (proj1 (proj2 (register_frames s w 24 0x12 0
                           (conj eq_refl (conj eq_refl eq_refl))))).
Defined.

(** C9.  Without the flag every pin and port operation raises
    [AssertionError] and changes nothing: on a driver as constructed, on one
    whose [open()] did not complete, on any state with the flag clear, and in
    the state that [close()], which clears the flag, leaves behind. *)
Theorem uninitialised_use_faults {T} `{SpiDev T} (w : world T) :
  (forall b c r d, all_ops_fault (__init__ b c r d, w)) /\
  (forall b c r d, all_ops_fault (snd (open (__init__ b c r d, w)))) /\
  (forall s, all_ops_fault (set_isInitialized false s, w)) /\
  (forall s,
     fst (close (s, w)) = Return tt /\
     isInitialized (fst (snd (close (s, w)))) = false /\
     all_ops_fault (snd (close (s, w)))).
Proof.
  split; [|split; [|split]]; intros.
  - now apply flag_clear_all_ops_fault.
  - rewrite open_bus_unbound by reflexivity. now apply flag_clear_all_ops_fault.
  - now apply flag_clear_all_ops_fault.
  - rewrite close_clears_flag. split; [reflexivity|]. split; [reflexivity|].
    now apply flag_clear_all_ops_fault.
Qed.

(** C10.  [writeGPIO(data)] never reduces [data] to 16 bits: the port-B shadow
    becomes [data >> 8] and the high byte handed to the bus is [data >> 8],
    both above 255 as soon as [data >= 2^16]; the port-A shadow is
    [data & 0xFF], always within a byte. *)
Theorem writeGPIO_unmasked_high_byte {T} `{SpiDev T}
    (s : MCP23S17) (w : world T) (cs data : Z) (t1 : T) (r1 : list Z) :
  ready cs (s, w) ->
  spi_xfer2 (spi w) (write_frame s MCP23S17_GPIOA (Z.land data 0xFF)) = Some (t1, r1) ->
  let st := snd (writeGPIO data (s, w)) in
  _GPIOA (fst st) = Z.land data 0xFF /\
  0 <= _GPIOA (fst st) <= 255 /\
  _GPIOB (fst st) = Z.shiftr data 8 /\
  transfers (trace (snd st)) =
    transfers (trace w) ++
    [[Z.lor 0x40 (Z.shiftl (deviceID s) 1); 0x12; Z.land data 0xFF];
     [Z.lor 0x40 (Z.shiftl (deviceID s) 1); 0x13; Z.shiftr data 8]] /\
  (65536 <= data -> 255 < Z.shiftr data 8).
Proof.
  intros Hr H1 st; subst st.
  pose proof Hr as (Hi & _ & _); simpl in Hi.
  rewrite writeGPIO_unfold, _writeRegisterWord_unfold by exact Hi.
  erewrite bind_Return
    by (eapply _writeRegister_frame_ok; [apply ready_shadows, Hr | exact H1]).
  erewrite _writeRegister_run by (apply ready_transport, ready_shadows, Hr).
  pose proof (land_byte_range data) as Hlo.
  assert (Hhi : 65536 <= data -> 255 < Z.shiftr data 8).
  { intros Hd. rewrite Z.shiftr_div_pow2 by lia. change (2 ^ 8) with 256.
    apply Z.lt_le_trans with 256; [lia|]. apply Z.div_le_lower_bound; lia. }
  cbn [spi].
  match goal with |- context [spi_xfer2 t1 ?f] =>
    destruct (spi_xfer2 t1 f) as [[t2 r2]|] end; simpl;
    repeat split; try apply Hlo; try exact Hhi; try reflexivity;
    rewrite !transfers_app; simpl; now rewrite <- app_assoc.
Qed.

Lemma writeGPIO_unmasked_high_byte_witness :
  let s := patched (__init__ 0 0 (-1) 0) 0 0 24 in
  let w := fresh_world (FlakyBus 2) in
  ready 24 (s, w) /\
  _GPIOA (fst (snd (writeGPIO 0x12345 (s, w)))) = 0x45 /\
  _GPIOB (fst (snd (writeGPIO 0x12345 (s, w)))) = 0x123 /\
  transfers (trace (snd (snd (writeGPIO 0x12345 (s, w))))) =
    [[0x40; 0x12; 0x45]; [0x40; 0x13; 0x123]].
Proof.
  intros s w. split; [repeat split|].
  destruct (writeGPIO_unmasked_high_byte s w 24 0x12345 (FlakyBus 1) [0; 0; 0])
    as (Ha & _ & Hb & Htr & _).
  - repeat split.
  - reflexivity.
  - split; [exact Ha|]. split; [exact Hb | exact Htr].
Defined.

(** * Further properties of the driver *)

(** ** Bit arithmetic of the read-modify-write *)

Lemma with_bit_testbit b data bit n :
  0 <= bit -> 0 <= n ->
  Z.testbit (with_bit b data bit) n =
    if n =? bit then b else Z.testbit data n.
Proof.
  intros Hb Hn. unfold with_bit. rewrite Z.shiftl_1_l.
  destruct b.
  - rewrite Z.lor_spec, Z.pow2_bits_eqb by lia.
    rewrite (Z.eqb_sym bit n).
    destruct (n =? bit); [apply orb_true_r | apply orb_false_r].
  - rewrite Z.land_spec, Z.lnot_spec, Z.pow2_bits_eqb by lia.
    rewrite (Z.eqb_sym bit n).
    destruct (n =? bit); [apply andb_false_r | apply andb_true_r].
Qed.

Lemma bank_bit_range pin : 0 <= pin < 16 -> 0 <= bank_bit pin < 8.
Proof.
  intros Hp. unfold bank_bit. destruct (Z.ltb_spec pin 8); [lia|].
  change 7 with (Z.ones 3). rewrite Z.land_ones by lia.
  change (2 ^ 3) with 8. pose proof (Z.mod_pos_bound pin 8 eq_refl). lia.
Qed.

Lemma erase_bank_set_shadow f pin v s :
  erase_bank f pin (set_shadow f pin v s) = erase_bank f pin s.
Proof. apply set_shadow_twice. Qed.

Lemma transfers_snoc tr cs frame :
  transfers (tr ++ transaction cs frame) = transfers tr ++ [frame].
Proof. now rewrite transfers_app. Qed.

Lemma echo_chip_answers (t : echo_chip) : answers t.
Proof.
  intros frame. destruct frame as [|a [|b [|c [|d frame]]]]; simpl;
    try destruct (Z.odd a); eexists; reflexivity.
Qed.

(** ** The three pin writers *)

Section PinBit.
Context {T : Type} `{SpiDev T}.
Implicit Types (s : MCP23S17) (w : world T).

(** What the three success lemmas have in common, read at the level of bits. *)
Lemma pin_bit_update f pin b s :
  0 <= pin < 16 ->
  let s' := set_shadow f pin (with_bit b (shadow f pin s) (bank_bit pin)) s in
  (forall n, 0 <= n ->
     Z.testbit (shadow f pin s') n =
       if n =? Z.land pin 0x07 then b else Z.testbit (shadow f pin s) n) /\
  erase_bank f pin s' = erase_bank f pin s.
Proof.
  intros Hp s'; subst s'. split.
  - intros n Hn. rewrite shadow_set_shadow, <- (bank_bit_land pin Hp).
    apply with_bit_testbit; [apply bank_bit_range, Hp | exact Hn].
  - apply erase_bank_set_shadow.
Qed.

(** X1.  [setDirection(pin, direction)] on a ready driver and a bus that
    answers: one write frame to the direction register of the pin's bank,
    carrying the new shadow; in that shadow bit [pin & 0x07] is 1 for
    [DIR_INPUT] and 0 for [DIR_OUTPUT], every other bit is as before, and no
    other attribute changes. *)
Theorem setDirection_pin_bit s w (cs pin direction : Z) :
  ready cs (s, w) ->
  answers (spi w) ->
  0 <= pin < 16 ->
  direction = DIR_INPUT \/ direction = DIR_OUTPUT ->
  exists s' w',
    setDirection pin direction (s, w) = (Return tt, (s', w')) /\
    transfers (trace w') =
      transfers (trace w) ++ [write_frame s (address IODIR pin) (shadow IODIR pin s')] /\
    (forall n, 0 <= n ->
       Z.testbit (shadow IODIR pin s') n =
         if n =? Z.land pin 0x07 then direction =? DIR_INPUT
         else Z.testbit (shadow IODIR pin s) n) /\
    erase_bank IODIR pin s' = erase_bank IODIR pin s.
Proof.
  intros Hr Ha Hp Hd.
  destruct (Ha (write_frame s (address IODIR pin)
                  (with_bit (direction =? DIR_INPUT) (shadow IODIR pin s) (bank_bit pin))))
    as [[t' resp] E].
  eexists _, _. split; [exact (setDirection_ok s w cs pin direction t' resp Hr Hp Hd E)|].
  split; [|apply pin_bit_update, Hp].
  cbn [trace]. now rewrite transfers_snoc, shadow_set_shadow.
Qed.

(** X2.  [setPullupMode(pin, mode)] likewise writes the pull-up register of
    the pin's bank: bit [pin & 0x07] becomes 1 for [PULLUP_ENABLED] and 0 for
    [PULLUP_DISABLED], the other bits and attributes stay. *)
Theorem setPullupMode_pin_bit s w (cs pin mode : Z) :
  ready cs (s, w) ->
  answers (spi w) ->
  0 <= pin < 16 ->
  mode = PULLUP_ENABLED \/ mode = PULLUP_DISABLED ->
  exists s' w',
    setPullupMode pin mode (s, w) = (Return tt, (s', w')) /\
    transfers (trace w') =
      transfers (trace w) ++ [write_frame s (address GPPU pin) (shadow GPPU pin s')] /\
    (forall n, 0 <= n ->
       Z.testbit (shadow GPPU pin s') n =
         if n =? Z.land pin 0x07 then mode =? PULLUP_ENABLED
         else Z.testbit (shadow GPPU pin s) n) /\
    erase_bank GPPU pin s' = erase_bank GPPU pin s.
Proof.
  intros Hr Ha Hp Hm.
  destruct (Ha (write_frame s (address GPPU pin)
                  (with_bit (mode =? PULLUP_ENABLED) (shadow GPPU pin s) (bank_bit pin))))
    as [[t' resp] E].
  eexists _, _. split; [exact (setPullupMode_ok s w cs pin mode t' resp Hr Hp Hm E)|].
  split; [|apply pin_bit_update, Hp].
  cbn [trace]. now rewrite transfers_snoc, shadow_set_shadow.
Qed.

(** X3.  [digitalWrite(pin, level)] builds the byte from the cached port
    shadow, not from the chip: bit [pin & 0x07] becomes 1 for [LEVEL_HIGH] and
    0 for [LEVEL_LOW], the sibling pins keep their cached level, and the only
    transfer is the write of that byte. *)
Theorem digitalWrite_pin_bit s w (cs pin level : Z) :
  ready cs (s, w) ->
  answers (spi w) ->
  0 <= pin < 16 ->
  level = LEVEL_HIGH \/ level = LEVEL_LOW ->
  exists s' w',
    digitalWrite pin level (s, w) = (Return tt, (s', w')) /\
    transfers (trace w') =
      transfers (trace w) ++ [write_frame s (address GPIO pin) (shadow GPIO pin s')] /\
    (forall n, 0 <= n ->
       Z.testbit (shadow GPIO pin s') n =
         if n =? Z.land pin 0x07 then level =? LEVEL_HIGH
         else Z.testbit (shadow GPIO pin s) n) /\
    erase_bank GPIO pin s' = erase_bank GPIO pin s.
Proof.
  intros Hr Ha Hp Hl.
  destruct (Ha (write_frame s (address GPIO pin)
                  (with_bit (level =? LEVEL_HIGH) (shadow GPIO pin s) (bank_bit pin))))
    as [[t' resp] E].
  eexists _, _. split; [exact (digitalWrite_ok s w cs pin level t' resp Hr Hp Hl E)|].
  split; [|apply pin_bit_update, Hp].
  cbn [trace]. now rewrite transfers_snoc, shadow_set_shadow.
Qed.

(** X4.  [digitalWrite(pin, HIGH)] followed by [digitalWrite(pin, LOW)] on a
    bus that never fails: two writes to the same port register, after which
    the port shadow is the one before the first call with bit [pin & 0x07]
    cleared. *)
Theorem digitalWrite_high_then_low s w (cs pin : Z) :
  ready cs (s, w) ->
  (forall t : T, answers t) ->
  0 <= pin < 16 ->
  exists s1 w1 s2 w2,
    digitalWrite pin LEVEL_HIGH (s, w) = (Return tt, (s1, w1)) /\
    digitalWrite pin LEVEL_LOW (s1, w1) = (Return tt, (s2, w2)) /\
    transfers (trace w2) =
      transfers (trace w) ++
      [write_frame s (address GPIO pin) (shadow GPIO pin s1);
       write_frame s (address GPIO pin) (shadow GPIO pin s2)] /\
    (forall n, 0 <= n ->
       Z.testbit (shadow GPIO pin s2) n =
         if n =? Z.land pin 0x07 then false else Z.testbit (shadow GPIO pin s) n) /\
    erase_bank GPIO pin s2 = erase_bank GPIO pin s.
Proof.
  intros Hr Ha Hp.
  set (d1 := with_bit true (shadow GPIO pin s) (bank_bit pin)).
  destruct (Ha (spi w) (write_frame s (address GPIO pin) d1)) as [[t1 r1] E1].
  set (s1 := set_shadow GPIO pin d1 s).
  set (d2 := with_bit false (shadow GPIO pin s1) (bank_bit pin)).
  destruct (Ha t1 (write_frame s1 (address GPIO pin) d2)) as [[t2 r2] E2].
  pose proof (digitalWrite_ok s w cs pin LEVEL_HIGH t1 r1 Hr Hp (or_introl eq_refl) E1) as R1.
  pose proof (digitalWrite_ok s1 (World t1 (spi_mode w) (trace w ++ transaction cs
                 (write_frame s (address GPIO pin) d1))) cs pin LEVEL_LOW t2 r2
                (ready_set_shadow cs GPIO pin d1 s _ (ready_transport cs s w t1 _ Hr))
                Hp (or_intror eq_refl) E2) as R2.
  exists s1, (World t1 (spi_mode w)
                (trace w ++ transaction cs (write_frame s (address GPIO pin) d1))),
         (set_shadow GPIO pin d2 s1),
         (World t2 (spi_mode w)
            ((trace w ++ transaction cs (write_frame s (address GPIO pin) d1)) ++
             transaction cs (write_frame s1 (address GPIO pin) d2))).
  split; [exact R1|]. split; [exact R2|].
  destruct (pin_bit_update GPIO pin true s Hp) as [B1 F1].
  destruct (pin_bit_update GPIO pin false s1 Hp) as [B2 F2].
  clear R1 R2 E1 E2. subst d2 s1 d1. cbv zeta in *.
  split; [|split].
  - cbn [trace]. rewrite !transfers_snoc, <- app_assoc.
    now rewrite write_frame_set_shadow, !shadow_set_shadow.
  - intros n Hn. rewrite (B2 n Hn), (B1 n Hn).
    now destruct (n =? Z.land pin 7).
  - rewrite F2. exact F1.
Qed.

Ltac check_pin :=
  unfold bind at 1, assert at 1; replace (_ <? 16) with true by lia; simpl.

Ltac check_enum Hm :=
  unfold bind at 1, assert at 1;
  match goal with
  | |- context [(?a =? ?x) || (?a =? ?y)] =>
      replace ((a =? x) || (a =? y)) with true by (destruct Hm; subst; reflexivity)
  end; simpl.

Ltac check_flag Hi :=
  unfold bind at 1, getattr at 1; simpl; unfold bind at 1; rewrite Hi; simpl.

Ltac refused_write :=
  unfold address, shadow, set_shadow, bank_bit, with_bit, write_frame, refused in *;
  match goal with |- context [if ?p <? 8 then _ else _] => destruct (p <? 8) end;
  match goal with |- context [if ?c then bind _ _ else _] => destruct c end;
  unfold bind at 1, getattr at 1, ret at 1; simpl;
  unfold bind at 1, bind at 1, lshift, ret;
  match goal with Hb : (_ <? 0) = false |- _ => rewrite Hb end; simpl;
  (erewrite bind_Raise by (eapply _writeRegister_fail; eauto));
  reflexivity.

(** X5.  When the transfer fails, each of the three pin writers passes the
    transport's error on and leaves every attribute, the shadow included, as
    it was; the chip select, pulled low for the transfer, is not raised
    again. *)
Theorem pin_writers_keep_shadow_on_failure s w (cs pin : Z) :
  ready cs (s, w) ->
  (forall frame, spi_xfer2 (spi w) frame = None) ->
  0 <= pin < 16 ->
  (forall mode, mode = PULLUP_ENABLED \/ mode = PULLUP_DISABLED ->
     setPullupMode pin mode (s, w) =
       (Raise IOError,
        (s, World (spi w) (spi_mode w)
              (trace w ++ refused cs
                 (write_frame s (address GPPU pin)
                    (with_bit (mode =? PULLUP_ENABLED) (shadow GPPU pin s)
                       (bank_bit pin))))))) /\
  (forall direction, direction = DIR_INPUT \/ direction = DIR_OUTPUT ->
     setDirection pin direction (s, w) =
       (Raise IOError,
        (s, World (spi w) (spi_mode w)
              (trace w ++ refused cs
                 (write_frame s (address IODIR pin)
                    (with_bit (direction =? DIR_INPUT) (shadow IODIR pin s)
                       (bank_bit pin))))))) /\
  (forall level, level = LEVEL_HIGH \/ level = LEVEL_LOW ->
     digitalWrite pin level (s, w) =
       (Raise IOError,
        (s, World (spi w) (spi_mode w)
              (trace w ++ refused cs
                 (write_frame s (address GPIO pin)
                    (with_bit (level =? LEVEL_HIGH) (shadow GPIO pin s)
                       (bank_bit pin))))))).
Proof.
  intros Hr Hf Hp.
  pose proof Hr as (Hi & _ & _); simpl in Hi.
  pose proof (bank_bit_nonneg _ (proj1 Hp)) as Hb.
  split; [|split].
  - intros mode Hm. unfold setPullupMode.
    check_pin. check_enum Hm. check_flag Hi. refused_write.
  - intros direction Hm. unfold setDirection.
    check_pin. check_enum Hm. check_flag Hi. refused_write.
  - intros level Hm. unfold digitalWrite.
    check_flag Hi. check_pin. check_enum Hm. refused_write.
Qed.

End PinBit.

(** ** Argument checks *)

Section ArgumentChecks.
Context {T : Type} `{SpiDev T}.
Implicit Types (s : MCP23S17) (w : world T) (st : MCP23S17 * world T).

(** X6.  A mode, direction or level other than 0 and 1 is refused by an
    assertion in every state and for every pin: nothing is transferred and
    nothing changes. *)
Theorem invalid_enum_faults st (pin v : Z) :
  v <> 0 -> v <> 1 ->
  setPullupMode pin v st = (Raise AssertionError, st) /\
  setDirection pin v st = (Raise AssertionError, st) /\
  digitalWrite pin v st = (Raise AssertionError, st).
Proof.
  intros H0 H1. destruct st as [s w].
  assert (E0 : (v =? 0) = false) by lia.
  assert (E1 : (v =? 1) = false) by lia.
  repeat split.
  - unfold setPullupMode, bind, assert, PULLUP_ENABLED, PULLUP_DISABLED.
    rewrite E0, E1. now destruct (pin <? 16).
  - unfold setDirection, bind, assert, DIR_INPUT, DIR_OUTPUT.
    rewrite E0, E1. now destruct (pin <? 16).
  - unfold digitalWrite, bind, assert, getattr, LEVEL_HIGH, LEVEL_LOW.
    rewrite E0, E1. simpl. destruct (isInitialized s); simpl; [|reflexivity].
    now destruct (pin <? 16).
Qed.

(** X7.  A pin above 15 is refused by an assertion in every state, whatever
    the other argument: the four pin operations transfer nothing and change
    nothing. *)
Theorem pin_above_15_faults st (pin : Z) :
  15 < pin ->
  (forall mode, setPullupMode pin mode st = (Raise AssertionError, st)) /\
  (forall direction, setDirection pin direction st = (Raise AssertionError, st)) /\
  digitalRead pin st = (Raise AssertionError, st) /\
  (forall level, digitalWrite pin level st = (Raise AssertionError, st)).
Proof.
  intros Hp. destruct st as [s w].
  assert (H16 : (pin <? 16) = false) by lia.
  repeat split; intros.
  - unfold setPullupMode, bind, assert; now rewrite H16.
  - unfold setDirection, bind, assert; now rewrite H16.
  - unfold digitalRead, bind, assert, getattr; simpl.
    destruct (isInitialized s); simpl; [now rewrite H16 | reflexivity].
  - unfold digitalWrite, bind, assert, getattr; simpl.
    destruct (isInitialized s); simpl; [now rewrite H16 | reflexivity].
Qed.

End ArgumentChecks.

Lemma invalid_enum_faults_witness :
  let st := (patched (__init__ 0 0 (-1) 0) 0 0 24, fresh_world (FlakyBus 1)) in
  2 <> 0 /\ 2 <> 1 /\
  setPullupMode 3 2 st = (Raise AssertionError, st) /\
  setDirection 3 2 st = (Raise AssertionError, st) /\
  digitalWrite 3 2 st = (Raise AssertionError, st).
Proof.
  intros st. split; [lia|]. split; [lia|].
  apply (invalid_enum_faults st 3 2); lia.
Defined.

Lemma pin_above_15_faults_witness :
  let st := (patched (__init__ 0 0 (-1) 0) 0 0 24, fresh_world (FlakyBus 1)) in
  15 < 16 /\ digitalRead 16 st = (Raise AssertionError, st).
Proof.
  intros st. split; [lia|].
  exact (proj1 (proj2 (proj2 (pin_above_15_faults st 16 ltac:(lia))))).
Defined.

(** ** Reads *)

Lemma bytes_of_word v0 v1 :
  0 <= v0 < 256 -> 0 <= v1 < 256 ->
  Z.lor (Z.shiftl v1 8) v0 = v1 * 256 + v0 /\
  Z.land (v1 * 256 + v0) 0xFF = v0 /\
  Z.shiftr (v1 * 256 + v0) 8 = v1.
Proof.
  intros H0 H1.
  assert (Hlo : Z.land (v1 * 256 + v0) 0xFF = v0).
  { change 255 with (Z.ones 8). rewrite Z.land_ones by lia.
    change (2 ^ 8) with 256. rewrite Z.add_comm, Z.mod_add by lia.
    now apply Z.mod_small. }
  assert (Hhi : Z.shiftr (v1 * 256 + v0) 8 = v1).
  { rewrite Z.shiftr_div_pow2 by lia. change (2 ^ 8) with 256.
    rewrite Z.add_comm, Z.div_add by lia. rewrite Z.div_small by lia. lia. }
  split; [|split; assumption].
  pose proof (word_of_bytes (v1 * 256 + v0)) as W.
  rewrite Hlo, Hhi in W. exact W.
Qed.

Section Reads.
Context {T : Type} `{SpiDev T}.
Implicit Types (s : MCP23S17) (w : world T).

(** X8.  [readGPIO()] reads port A, then port B, and returns
    [256 * B + A] when both answers are bytes; the two port shadows become
    those bytes and no other attribute changes. *)
Theorem readGPIO_word s w cs (t1 t2 : T) (r1 r2 : list Z) (v0 v1 : Z) :
  ready cs (s, w) ->
  spi_xfer2 (spi w) (read_frame s MCP23S17_GPIOA) = Some (t1, r1) ->
  nth_error r1 2 = Some v0 ->
  spi_xfer2 t1 (read_frame s MCP23S17_GPIOB) = Some (t2, r2) ->
  nth_error r2 2 = Some v1 ->
  0 <= v0 < 256 -> 0 <= v1 < 256 ->
  exists s' w',
    readGPIO (s, w) = (Return (v1 * 256 + v0), (s', w')) /\
    _GPIOA s' = v0 /\ _GPIOB s' = v1 /\
    erase GPIO s' = erase GPIO s /\
    transfers (trace w') =
      transfers (trace w) ++ [read_frame s MCP23S17_GPIOA; read_frame s MCP23S17_GPIOB].
Proof.
  intros Hr E1 N1 E2 N2 B0 B1.
  destruct (bytes_of_word v0 v1 B0 B1) as (Hw & Hlo & Hhi).
  pose proof (readGPIO_ok s w cs t1 r1 v0 t2 r2 v1 Hr E1 N1 E2 N2) as R.
  cbv zeta in R. rewrite Hw, Hlo, Hhi in R.
  eexists _, _. split; [exact R|].
  repeat split. cbn [trace]. rewrite !transfers_app. reflexivity.
Qed.

(** X9.  [digitalRead] refreshes the shadow only from a complete answer: when
    the transfer fails, or the answer has fewer than three bytes, the error
    goes to the caller and every attribute is as before. *)
Theorem digitalRead_no_refresh_on_error s w (cs pin : Z) :
  ready cs (s, w) ->
  0 <= pin < 16 ->
  (spi_xfer2 (spi w) (read_frame s (address GPIO pin)) = None ->
   digitalRead pin (s, w) =
     (Raise IOError,
      (s, World (spi w) (spi_mode w)
            (trace w ++ refused cs (read_frame s (address GPIO pin)))))) /\
  (forall t' resp,
     spi_xfer2 (spi w) (read_frame s (address GPIO pin)) = Some (t', resp) ->
     (length resp < 3)%nat ->
     digitalRead pin (s, w) =
       (Raise IndexError,
        (s, World t' (spi_mode w)
              (trace w ++ transaction cs (read_frame s (address GPIO pin)))))).
Proof.
  intros Hr Hp. pose proof Hr as (Hi & _ & _); simpl in Hi.
  assert (Hrun : forall o st',
            _readRegister (address GPIO pin) (s, w) = (Raise o, st') ->
            digitalRead pin (s, w) = (Raise o, st')).
  { intros o st' E. unfold digitalRead.
    unfold bind at 1, getattr at 1; simpl.
    unfold bind at 1; rewrite Hi; simpl.
    unfold bind at 1, assert at 1. replace (pin <? 16) with true by lia; simpl.
    unfold address in E. destruct (pin <? 8); now erewrite bind_Raise by exact E. }
  split.
  - intros E. apply Hrun. rewrite (_readRegister_run s w cs _ Hr), E. reflexivity.
  - intros t' resp E Hl. apply Hrun.
    rewrite (_readRegister_run s w cs _ Hr), E.
    destruct resp as [|? [|? [|? ?]]]; simpl in *; try reflexivity; lia.
Qed.

(** X10.  [readGPIO] assigns the shadows after both reads: when the second
    read fails, port A has been read but neither shadow has changed. *)
Theorem readGPIO_second_read_fails s w cs (t1 : T) (r1 : list Z) (v0 : Z) :
  ready cs (s, w) ->
  spi_xfer2 (spi w) (read_frame s MCP23S17_GPIOA) = Some (t1, r1) ->
  nth_error r1 2 = Some v0 ->
  spi_xfer2 t1 (read_frame s MCP23S17_GPIOB) = None ->
  readGPIO (s, w) =
    (Raise IOError,
     (s, World t1 (spi_mode w)
           (trace w ++ transaction cs (read_frame s MCP23S17_GPIOA) ++
            refused cs (read_frame s MCP23S17_GPIOB)))).
Proof.
  intros Hr E1 N1 E2. pose proof Hr as (Hi & _ & _); simpl in Hi.
  unfold readGPIO.
  unfold bind at 1, getattr at 1; simpl.
  unfold bind at 1; rewrite Hi; simpl.
  unfold _readRegisterWord.
  unfold bind at 1, bind at 1, getattr at 1; simpl.
  unfold bind at 1; rewrite Hi; simpl.
  erewrite bind_Return by (eapply _readRegister_ok; eassumption).
  unfold bind at 1.
  rewrite (_readRegister_run s _ cs _ (ready_transport cs s w t1 _ Hr)).
  cbn [spi]. change (MCP23S17_GPIOA + 1) with MCP23S17_GPIOB. rewrite E2.
  cbn [trace spi_mode]. unfold refused. now rewrite <- app_assoc.
Qed.

End Reads.

(** ** Clock mode and chip select *)

Section ClockMode.
Context {T : Type} `{SpiDev T}.
Implicit Types (s : MCP23S17) (w : world T).

(** X11.  When the bus is not in the driver's clock mode, a register write
    first sets the mode and sends the one-byte dummy frame, outside any
    chip-select window, and only then frames the register write; afterwards
    the bus has the driver's mode, so the next access sends no dummy. *)
Theorem register_write_sets_clock_mode s w (cs register value : Z) :
  isInitialized s = true ->
  _PIN_MCP_CS s = Some cs ->
  spi_mode w <> _spimode s ->
  (forall t : T, answers t) ->
  exists w',
    _writeRegister register value (s, w) = (Return tt, (s, w')) /\
    trace w' =
      trace w ++ [SPI_set_mode (_spimode s); SPI_xfer2 [0]] ++
      transaction cs (write_frame s register value) /\
    ready cs (s, w').
Proof.
  intros Hi Hcs Hm Ha.
  destruct (Ha (spi w) [0]) as [[t0 r0] E0].
  destruct (Ha t0 (write_frame s register value)) as [[t1 r1] E1].
  exists (World t1 (_spimode s)
            (trace w ++ [SPI_set_mode (_spimode s); SPI_xfer2 [0]] ++
             transaction cs (write_frame s register value))).
  split; [|split; [reflexivity | repeat split; assumption]].
  assert (Hne : (spi_mode w =? _spimode s) = false) by lia.
  unfold _writeRegister, _setSpiMode, write_frame in *.
  unfold bind, getattr, assert, getattr_unbound, emit, xfer2, spidev_mode,
    spidev_set_mode, ret, log; simpl.
  rewrite Hi; simpl. rewrite Hne; simpl. rewrite E0; simpl.
  rewrite Hcs; simpl. rewrite E1; simpl. rewrite Hcs; simpl.
  unfold transaction. now rewrite <- !app_assoc.
Qed.


End ClockMode.

(** ** What each operation can change *)

Section Footprint.
Context {T : Type} `{SpiDev T}.
Implicit Types (s : MCP23S17) (w : world T) (st : MCP23S17 * world T).

Lemma _readRegister_self s w register :
  fst (snd (_readRegister register (s, w))) = s.
Proof.
  unfold _readRegister, _setSpiMode, bind, assert, getattr, getattr_unbound,
    emit, xfer2, spidev_mode, spidev_set_mode, ret, raise; simpl.
  repeat case_match; simplify_eq/=; reflexivity.
Qed.

Ltac untouched := left; reflexivity.

Ltac gate_check :=
  unfold bind at 1, assert at 1;
  match goal with |- context [if ?c then ret tt else _] => destruct c end;
  [simpl | untouched].

Ltac flag_check :=
  unfold bind at 1, getattr at 1; simpl; gate_check.

Ltac new_shadow :=
  right; unfold set_shadow;
  match goal with E : (_ <? 8) = _ |- _ => rewrite E end;
  eexists; reflexivity.

Ltac written s w :=
  unfold bind at 1, getattr at 1, ret at 1; simpl;
  unfold bind at 1, bind at 1, lshift, ret, raise;
  match goal with |- context [?n <? 0] => destruct (n <? 0) end; simpl;
  [untouched|];
  unfold bind, setattr;
  match goal with |- context [_writeRegister ?r ?d (s, w)] =>
    let Hs := fresh "Hs" in
    pose proof (_writeRegister_self s w r d) as Hs;
    destruct (_writeRegister r d (s, w)) as [[[]|?] [? ?]];
    simpl in Hs; subst; simpl
  end;
  [new_shadow | untouched].

Ltac fetched s w :=
  unfold bind at 1;
  match goal with |- context [_readRegister ?r (s, w)] =>
    let Hs := fresh "Hs" in
    pose proof (_readRegister_self s w r) as Hs;
    destruct (_readRegister r (s, w)) as [[?|?] [? ?]];
    simpl in Hs; subst
  end;
  [|untouched];
  unfold bind, setattr, getattr, lshift, ret, raise; simpl;
  repeat case_match; simplify_eq/=; new_shadow.

Lemma setPullupMode_touches s w pin mode :
  touches GPPU pin s (fst (snd (setPullupMode pin mode (s, w)))).
Proof.
  unfold setPullupMode. gate_check. gate_check. flag_check.
  destruct (pin <? 8) eqn:E8; destruct (mode =? PULLUP_ENABLED); written s w.
Qed.

Lemma setDirection_touches s w pin direction :
  touches IODIR pin s (fst (snd (setDirection pin direction (s, w)))).
Proof.
  unfold setDirection. gate_check. gate_check. flag_check.
  destruct (pin <? 8) eqn:E8; destruct (direction =? DIR_INPUT); written s w.
Qed.

Lemma digitalWrite_touches s w pin level :
  touches GPIO pin s (fst (snd (digitalWrite pin level (s, w)))).
Proof.
  unfold digitalWrite. flag_check. gate_check. gate_check.
  destruct (pin <? 8) eqn:E8; destruct (level =? LEVEL_HIGH); written s w.
Qed.

Lemma digitalRead_touches s w pin :
  touches GPIO pin s (fst (snd (digitalRead pin (s, w)))).
Proof.
  unfold digitalRead. flag_check. gate_check.
  destruct (pin <? 8) eqn:E8; fetched s w.
Qed.

Lemma touches_erase_bank f pin s s' :
  touches f pin s s' -> erase_bank f pin s' = erase_bank f pin s.
Proof.
  intros [->|[v ->]]; [reflexivity | apply erase_bank_set_shadow].
Qed.

Lemma readGPIO_port_only s w :
  erase GPIO (fst (snd (readGPIO (s, w)))) = erase GPIO s.
Proof.
  unfold readGPIO.
  unfold bind at 1, getattr at 1; simpl.
  unfold bind at 1, assert at 1. destruct (isInitialized s) eqn:Hi; [simpl|reflexivity].
  unfold _readRegisterWord.
  unfold bind at 1, bind at 1, getattr at 1; simpl.
  unfold bind at 1, assert at 1. rewrite Hi; simpl.
  unfold bind at 1.
  pose proof (_readRegister_self s w MCP23S17_GPIOA) as H1.
  destruct (_readRegister MCP23S17_GPIOA (s, w)) as [[v0|e] [s1 w1]];
    simpl in H1; subst s1; [|reflexivity].
  unfold bind at 1.
  pose proof (_readRegister_self s w1 (MCP23S17_GPIOA + 1)) as H2.
  destruct (_readRegister (MCP23S17_GPIOA + 1) (s, w1)) as [[v1|e] [s2 w2]];
    simpl in H2; subst s2; reflexivity.
Qed.

Lemma writeGPIO_port_only s w data :
  erase GPIO (fst (snd (writeGPIO data (s, w)))) = erase GPIO s.
Proof.
  destruct (isInitialized s) eqn:Hi.
  - now rewrite writeGPIO_shadows_first.
  - unfold writeGPIO, bind, getattr, assert; simpl. now rewrite Hi.
Qed.

(** X13.  Whatever the arguments, the state and the outcome, an operation
    changes at most its own shadow: [setPullupMode] the pull-up shadow of the
    pin's bank, [setDirection] the direction shadow of the pin's bank,
    [digitalRead] and [digitalWrite] the port shadow of the pin's bank,
    [readGPIO] and [writeGPIO] the two port shadows.  The flag, the device
    address and every other shadow are as before. *)
Theorem operation_footprint st :
  (forall pin mode,
     erase_bank GPPU pin (fst (snd (setPullupMode pin mode st))) =
     erase_bank GPPU pin (fst st)) /\
  (forall pin direction,
     erase_bank IODIR pin (fst (snd (setDirection pin direction st))) =
     erase_bank IODIR pin (fst st)) /\
  (forall pin,
     erase_bank GPIO pin (fst (snd (digitalRead pin st))) =
     erase_bank GPIO pin (fst st)) /\
  (forall pin level,
     erase_bank GPIO pin (fst (snd (digitalWrite pin level st))) =
     erase_bank GPIO pin (fst st)) /\
  (forall data, erase GPIO (fst (snd (writeGPIO data st))) = erase GPIO (fst st)) /\
  erase GPIO (fst (snd (readGPIO st))) = erase GPIO (fst st).
Proof.
  destruct st as [s w]. cbn [fst].
  split; [|split; [|split; [|split; [|split]]]]; intros.
  - apply touches_erase_bank, setPullupMode_touches.
  - apply touches_erase_bank, setDirection_touches.
  - apply touches_erase_bank, digitalRead_touches.
  - apply touches_erase_bank, digitalWrite_touches.
  - apply writeGPIO_port_only.
  - apply readGPIO_port_only.
Qed.

End Footprint.

(** ** Through the echo chip *)

Lemma echo_write (t : echo_chip) s register value :
  spi_xfer2 t (write_frame s register value) =
    Some (EchoChip (<[register := Z.land value 0xFF]> (regs t)), [0; 0; 0]).
Proof.
  unfold write_frame; simpl.
  replace (Z.odd (Z.lor MCP23S17_CMD_WRITE (Z.shiftl (deviceID s) 1))) with false;
    [reflexivity|].
  rewrite <- Z.bit0_odd, Z.lor_spec, Z.shiftl_spec_low by lia. reflexivity.
Qed.

Lemma echo_read (t : echo_chip) s register :
  spi_xfer2 t (read_frame s register) =
    Some (t, [0; 0; default 0 (regs t !! register)]).
Proof.
  unfold read_frame; simpl.
  replace (Z.odd (Z.lor MCP23S17_CMD_READ (Z.shiftl (deviceID s) 1))) with true;
    [reflexivity|].
  rewrite <- Z.bit0_odd, Z.lor_spec, Z.shiftl_spec_low by lia. reflexivity.
Qed.

Lemma testbit_land_byte v n :
  0 <= n < 8 -> Z.testbit (Z.land v 0xFF) n = Z.testbit v n.
Proof.
  intros Hn. change 255 with (Z.ones 8).
  rewrite Z.land_spec, Z.ones_spec_low by lia. apply andb_true_r.
Qed.

Lemma level_of_eqb level :
  level = LEVEL_HIGH \/ level = LEVEL_LOW -> level_of (level =? LEVEL_HIGH) = level.
Proof. intros [->| ->]; reflexivity. Qed.

Lemma high_pin_bit pin :
  8 <= pin < 16 -> Z.land pin 0x07 = pin - 8.
Proof.
  intros Hp.
  assert (E : pin = 8 \/ pin = 9 \/ pin = 10 \/ pin = 11 \/
              pin = 12 \/ pin = 13 \/ pin = 14 \/ pin = 15) by lia.
  repeat destruct E as [->|E]; try subst pin; reflexivity.
Qed.

(** X14.  On the echo chip, [digitalWrite(pin, level)] followed by
    [digitalRead(pin)] returns [level], whatever the cached port byte was. *)
Theorem digitalWrite_digitalRead_echo
    (s : MCP23S17) (w : world echo_chip) (cs pin level : Z) :
  ready cs (s, w) ->
  0 <= pin < 16 ->
  level = LEVEL_HIGH \/ level = LEVEL_LOW ->
  exists st1 st2,
    digitalWrite pin level (s, w) = (Return tt, st1) /\
    digitalRead pin st1 = (Return level, st2).
Proof.
  intros Hr Hp Hl.
  set (data := with_bit (level =? LEVEL_HIGH) (shadow GPIO pin s) (bank_bit pin)).
  pose proof (digitalWrite_ok s w cs pin level _ _ Hr Hp Hl (echo_write _ _ _ _)) as R1.
  fold data in R1.
  eexists _, _. split; [exact R1|].
  erewrite digitalRead_ok;
    [ | apply ready_set_shadow, ready_transport, Hr | exact Hp
      | apply echo_read | reflexivity ].
  cbn [spi regs]. rewrite lookup_insert_eq. cbn [default from_option id].
  pose proof (bank_bit_range pin Hp) as Hb.
  rewrite <- (bank_bit_land pin Hp), testbit_land_byte by exact Hb.
  unfold data. rewrite with_bit_testbit by lia. rewrite Z.eqb_refl.
  fold (level_of (level =? LEVEL_HIGH)). rewrite level_of_eqb by exact Hl.
  reflexivity.
Qed.

(** X15.  On the echo chip, after [writeGPIO(data)] the level that
    [digitalRead(pin)] reports is bit [pin] of [data]: pin [p] of the
    expander is bit [p] of the port word. *)
Theorem writeGPIO_digitalRead_echo
    (s : MCP23S17) (w : world echo_chip) (cs pin data : Z) :
  ready cs (s, w) ->
  0 <= pin < 16 ->
  exists st1 st2,
    writeGPIO data (s, w) = (Return tt, st1) /\
    digitalRead pin st1 = (Return (level_of (Z.testbit data pin)), st2).
Proof.
  intros Hr Hp.
  pose proof (writeGPIO_ok s w cs data _ _ _ _ Hr (echo_write _ _ _ _) (echo_write _ _ _ _))
    as R1.
  pose proof (bank_bit_land pin Hp) as Hb. unfold bank_bit in Hb.
  destruct (Z.ltb_spec pin 8) as [Hlt|Hge];
    (eexists _, _; split; [exact R1|]);
    (erewrite digitalRead_ok;
     [ | apply ready_transport, ready_shadows, Hr | exact Hp
       | apply echo_read | reflexivity ]);
    cbn [spi regs]; unfold level_of, address.
  - replace (pin <? 8) with true by lia.
    rewrite lookup_insert_ne by discriminate. rewrite lookup_insert_eq.
    cbn [default from_option id]. rewrite <- Hb.
    rewrite !testbit_land_byte by lia. reflexivity.
  - replace (pin <? 8) with false by lia.
    rewrite lookup_insert_eq. cbn [default from_option id].
    rewrite high_pin_bit by lia.
    rewrite testbit_land_byte, Z.shiftr_spec by lia.
    replace (pin - 8 + 8) with pin by lia. reflexivity.
Qed.

(** ** The command byte *)

Lemma command_bits dev :
  0 <= dev <= 7 ->
  let cw := Z.lor MCP23S17_CMD_WRITE (Z.shiftl dev 1) in
  let cr := Z.lor MCP23S17_CMD_READ (Z.shiftl dev 1) in
  Z.land (Z.shiftr cw 1) 0x07 = dev /\ Z.land (Z.shiftr cr 1) 0x07 = dev /\
  Z.odd cw = false /\ Z.odd cr = true /\
  Z.shiftr cw 4 = 0x4 /\ Z.shiftr cr 4 = 0x4 /\ cr = cw + 1.
Proof.
  intros Hd.
  assert (E : dev = 0 \/ dev = 1 \/ dev = 2 \/ dev = 3 \/
              dev = 4 \/ dev = 5 \/ dev = 6 \/ dev = 7) by lia.
  repeat destruct E as [->|E]; try subst dev; repeat split.
Qed.

(** X16.  For a device address in [0,7] the first byte of every register
    frame decodes back: bits 1 to 3 are the device address, bit 0 is clear in
    a write and set in a read, and the upper nibble is 0100. *)
Theorem command_byte_decodes {T} `{SpiDev T}
    (s : MCP23S17) (w : world T) (cs register value : Z) :
  ready cs (s, w) ->
  0 <= deviceID s <= 7 ->
  exists cw cr,
    transfers (trace (snd (snd (_writeRegister register value (s, w))))) =
      transfers (trace w) ++ [[cw; register; value]] /\
    transfers (trace (snd (snd (_readRegister register (s, w))))) =
      transfers (trace w) ++ [[cr; register; 0]] /\
    Z.land (Z.shiftr cw 1) 0x07 = deviceID s /\
    Z.land (Z.shiftr cr 1) 0x07 = deviceID s /\
    Z.odd cw = false /\ Z.odd cr = true /\
    Z.shiftr cw 4 = 0x4 /\ Z.shiftr cr 4 = 0x4 /\ cr = cw + 1.
Proof.
  intros Hr Hd.
  exists (Z.lor MCP23S17_CMD_WRITE (Z.shiftl (deviceID s) 1)),
         (Z.lor MCP23S17_CMD_READ (Z.shiftl (deviceID s) 1)).
  split; [|split; [|exact (command_bits (deviceID s) Hd)]].
  - rewrite (_writeRegister_run s w cs register value Hr).
    destruct (spi_xfer2 _ _) as [[t' resp]|]; simpl;
      rewrite transfers_app; reflexivity.
  - rewrite (_readRegister_run s w cs register Hr).
    destruct (spi_xfer2 _ _) as [[t' resp]|]; simpl;
      rewrite transfers_app; reflexivity.
Qed.

(** ** The defaults loop of [open] *)

Lemma defaults_IODIRA pins s :
  _IODIRA (defaults pins s) = Z.lor (_IODIRA s) (mask true pins).
Proof.
  revert s. induction pins as [|p pins IH]; intros s; simpl.
  - now rewrite Z.lor_0_r.
  - rewrite IH, Z.lor_assoc. f_equal.
    unfold pin_default, set_shadow, shadow, with_bit.
    destruct (p <? 8); simpl; [reflexivity | now rewrite Z.lor_0_r].
Qed.

Lemma defaults_IODIRB pins s :
  _IODIRB (defaults pins s) = Z.lor (_IODIRB s) (mask false pins).
Proof.
  revert s. induction pins as [|p pins IH]; intros s; simpl.
  - now rewrite Z.lor_0_r.
  - rewrite IH, Z.lor_assoc. f_equal.
    unfold pin_default, set_shadow, shadow, with_bit.
    destruct (p <? 8); simpl; [now rewrite Z.lor_0_r | reflexivity].
Qed.

Lemma defaults_GPPUA pins s :
  _GPPUA (defaults pins s) = Z.lor (_GPPUA s) (mask true pins).
Proof.
  revert s. induction pins as [|p pins IH]; intros s; simpl.
  - now rewrite Z.lor_0_r.
  - rewrite IH, Z.lor_assoc. f_equal.
    unfold pin_default, set_shadow, shadow, with_bit.
    destruct (p <? 8); simpl; [reflexivity | now rewrite Z.lor_0_r].
Qed.

Lemma defaults_GPPUB pins s :
  _GPPUB (defaults pins s) = Z.lor (_GPPUB s) (mask false pins).
Proof.
  revert s. induction pins as [|p pins IH]; intros s; simpl.
  - now rewrite Z.lor_0_r.
  - rewrite IH, Z.lor_assoc. f_equal.
    unfold pin_default, set_shadow, shadow, with_bit.
    destruct (p <? 8); simpl; [now rewrite Z.lor_0_r | reflexivity].
Qed.

Lemma defaults_rest pins s :
  erase IODIR (erase GPPU (defaults pins s)) = erase IODIR (erase GPPU s).
Proof.
  revert s. induction pins as [|p pins IH]; intros s; cbn [defaults]; [reflexivity|].
  rewrite IH. unfold pin_default, set_shadow, shadow.
  destruct (p <? 8); reflexivity.
Qed.

Section OpenLoop.
Context {T : Type} `{SpiDev T}.
Implicit Types (s : MCP23S17) (w : world T).

Lemma ready_pin_default cs pin s w :
  ready cs (s, w) -> ready cs (pin_default pin s, w).
Proof. intros Hr. unfold pin_default. now do 2 apply ready_set_shadow. Qed.

Lemma default_step s w cs pin :
  ready cs (s, w) ->
  (forall t : T, answers t) ->
  0 <= pin < 16 ->
  exists w' frames,
    (setDirection pin DIR_INPUT ;; setPullupMode pin PULLUP_ENABLED) (s, w) =
      (Return tt, (pin_default pin s, w')) /\
    ready cs (pin_default pin s, w') /\
    transfers (trace w') = transfers (trace w) ++ frames /\
    length frames = 2%nat.
Proof.
  intros Hr Ha Hp.
  set (d1 := with_bit true (shadow IODIR pin s) (bank_bit pin)).
  set (s1 := set_shadow IODIR pin d1 s).
  set (d2 := with_bit true (shadow GPPU pin s1) (bank_bit pin)).
  destruct (Ha (spi w) (write_frame s (address IODIR pin) d1)) as [[t1 r1] E1].
  destruct (Ha t1 (write_frame s1 (address GPPU pin) d2)) as [[t2 r2] E2].
  pose proof (setDirection_ok s w cs pin DIR_INPUT t1 r1 Hr Hp (or_introl eq_refl) E1) as R1.
  set (w1 := World t1 (spi_mode w)
               (trace w ++ transaction cs (write_frame s (address IODIR pin) d1))) in *.
  assert (Hr1 : ready cs (s1, w1)) by (apply ready_set_shadow, Hr).
  pose proof (setPullupMode_ok s1 w1 cs pin PULLUP_ENABLED t2 r2 Hr1 Hp
                (or_introl eq_refl) E2) as R2.
  eexists _, [_; _]. split; [|split; [|split]].
  - erewrite bind_Return by exact R1. exact R2.
  - apply (ready_pin_default cs pin s), Hr.
  - subst w1. cbn [trace]. rewrite !transfers_snoc, <- app_assoc. reflexivity.
  - reflexivity.
Qed.

Lemma defaults_loop cs pins :
  (forall t : T, answers t) ->
  Forall (fun pin => 0 <= pin < 16) pins ->
  forall s w,
    ready cs (s, w) ->
    exists w' frames,
      for_each pins (fun index =>
        setDirection index DIR_INPUT ;; setPullupMode index PULLUP_ENABLED) (s, w) =
        (Return tt, (defaults pins s, w')) /\
      ready cs (defaults pins s, w') /\
      transfers (trace w') = transfers (trace w) ++ frames /\
      length frames = (2 * length pins)%nat.
Proof.
  intros Ha Hpins. induction Hpins as [|pin pins Hp _ IH]; intros s w Hr.
  - exists w, []. repeat split; try apply Hr. now rewrite app_nil_r.
  - destruct (default_step s w cs pin Hr Ha Hp) as (w1 & f1 & R1 & Hr1 & T1 & L1).
    destruct (IH _ _ Hr1) as (w2 & f2 & R2 & Hr2 & T2 & L2).
    exists w2, (f1 ++ f2). split; [|split; [exact Hr2|split]].
    + cbn [for_each defaults]. erewrite bind_Return by exact R1. exact R2.
    + now rewrite T2, T1, <- app_assoc.
    + rewrite length_app, L1, L2. simpl length. lia.
Qed.

Lemma set_isInitialized_same b s :
  isInitialized s = b -> set_isInitialized b s = s.
Proof. intros <-. now destruct s. Qed.

Lemma range_0_15_pins : Forall (fun pin => 0 <= pin < 16) (range 0 15).
Proof. repeat constructor; lia. Qed.

(** X17.  Where [open()] can complete, on a driver whose flag is already
    set and whose [bus], [ce] and chip select are bound, with a bus that
    opens and never fails, it writes [IOCON_INIT] to the configuration
    register and then sets the direction and pull-up bits of pins 0 to 14:
    31 writes in all, bits 0-7 of bank A and bits 0-6 of bank B set, bit 7
    of bank B (pin 15) and everything else left as it was. *)
Theorem open_configures_pins_0_to_14 s w (cs b c : Z) :
  ready cs (s, w) ->
  bus s = Some b ->
  ce s = Some c ->
  (forall t : T, is_Some (spi_open t b c)) ->
  (forall t : T, answers t) ->
  exists s' w' rest,
    open (s, w) = (Return tt, (s', w')) /\
    transfers (trace w') =
      transfers (trace w) ++ write_frame s MCP23S17_IOCON IOCON_INIT :: rest /\
    length rest = 30%nat /\
    _IODIRA s' = Z.lor (_IODIRA s) 0xFF /\ _IODIRB s' = Z.lor (_IODIRB s) 0x7F /\
    _GPPUA s' = Z.lor (_GPPUA s) 0xFF /\ _GPPUB s' = Z.lor (_GPPUB s) 0x7F /\
    erase IODIR (erase GPPU s') = erase IODIR (erase GPPU s).
Proof.
  intros Hr Hb Hc Ho Ha. pose proof Hr as (Hi & Hcs & Hm); simpl in Hi, Hcs, Hm.
  set (w0 := World (spi w) (spi_mode w) (trace w ++ setup_events (_pin_reset s))).
  destruct (Ho (spi w)) as [t0 E0].
  set (w1 := World t0 (spi_mode w) (trace w0 ++ [SPI_open b c])).
  assert (Hr1 : ready cs (s, w1)) by exact Hr.
  destruct (Ha t0 (write_frame s MCP23S17_IOCON IOCON_INIT)) as [[t2 r2] E2].
  pose proof (_writeRegister_frame_ok s w1 cs _ _ t2 r2 Hr1 E2) as R2.
  set (w2 := World t2 (spi_mode w1)
               (trace w1 ++ transaction cs (write_frame s MCP23S17_IOCON IOCON_INIT))) in *.
  destruct (defaults_loop cs (range 0 15) Ha range_0_15_pins s w2 Hr1)
    as (w3 & rest & R3 & _ & T3 & L3).
  exists (set_isInitialized true (defaults (range 0 15) s)), w3, rest.
  split; [|split; [|split; [exact L3|]]].
  - unfold open.
    erewrite bind_Return by apply _setupGPIO_run.
    unfold bind at 1, getattr_unbound at 1; cbn [fst]. rewrite Hb.
    unfold bind at 1, getattr_unbound at 1; cbn [fst]. rewrite Hc.
    unfold bind at 1, spidev_open at 1; cbn [fst snd log spi spi_mode trace].
    rewrite E0. fold w0. fold w1.
    erewrite bind_Return by exact R2.
    unfold open_defaults. erewrite bind_Return by exact R3.
    reflexivity.
  - rewrite T3. subst w2 w1 w0. cbn [trace].
    rewrite transfers_snoc, !transfers_app, <- !app_assoc.
    replace (transfers (setup_events (_pin_reset s))) with (@nil (list Z))
      by (unfold setup_events; now destruct (negb (_pin_reset s =? -1))).
    reflexivity.
  - assert (Hflag : isInitialized (defaults (range 0 15) s) = true).
    { rewrite <- Hi.
      exact (f_equal isInitialized (defaults_rest (range 0 15) s)). }
    rewrite (set_isInitialized_same _ _ Hflag).
    rewrite defaults_IODIRA, defaults_IODIRB, defaults_GPPUA, defaults_GPPUB.
    split; [reflexivity|]. split; [reflexivity|].
    split; [reflexivity|]. split; [reflexivity|].
    apply defaults_rest.
Qed.

End OpenLoop.

(** ** Negative pins *)

Section NegativePins.
Context {T : Type} `{SpiDev T}.
Implicit Types (s : MCP23S17) (w : world T).

(** X18.  A negative pin passes [assert pin < 16] and selects bank A.  The
    three writers then fail with [ValueError] at [1 << pin], before any
    transfer and with nothing changed; [digitalRead] has by then read port A
    and replaced its shadow, and fails with [ValueError] afterwards. *)
Theorem negative_pin_behaviour s w (cs pin : Z) :
  ready cs (s, w) ->
  pin < 0 ->
  (forall mode, mode = PULLUP_ENABLED \/ mode = PULLUP_DISABLED ->
     setPullupMode pin mode (s, w) = (Raise ValueError, (s, w))) /\
  (forall direction, direction = DIR_INPUT \/ direction = DIR_OUTPUT ->
     setDirection pin direction (s, w) = (Raise ValueError, (s, w))) /\
  (forall level, level = LEVEL_HIGH \/ level = LEVEL_LOW ->
     digitalWrite pin level (s, w) = (Raise ValueError, (s, w))) /\
  (forall t' resp v,
     spi_xfer2 (spi w) (read_frame s MCP23S17_GPIOA) = Some (t', resp) ->
     nth_error resp 2 = Some v ->
     digitalRead pin (s, w) =
       (Raise ValueError,
        (set_GPIOA v s,
         World t' (spi_mode w)
           (trace w ++ transaction cs (read_frame s MCP23S17_GPIOA))))).
Proof.
  intros Hr Hp. pose proof Hr as (Hi & _ & _); simpl in Hi.
  assert (H16 : (pin <? 16) = true) by lia.
  assert (H8 : (pin <? 8) = true) by lia.
  assert (H0 : (pin <? 0) = true) by lia.
  split; [|split; [|split]].
  - intros mode Hm.
    assert (Hv : (mode =? PULLUP_ENABLED) || (mode =? PULLUP_DISABLED) = true)
      by (destruct Hm; subst; reflexivity).
    unfold setPullupMode, bind, assert, getattr, lshift, ret, raise.
    rewrite H16, Hv; simpl. rewrite Hi, H8; simpl.
    destruct (mode =? PULLUP_ENABLED); now rewrite H0.
  - intros direction Hm.
    assert (Hv : (direction =? DIR_INPUT) || (direction =? DIR_OUTPUT) = true)
      by (destruct Hm; subst; reflexivity).
    unfold setDirection, bind, assert, getattr, lshift, ret, raise.
    rewrite H16, Hv; simpl. rewrite Hi, H8; simpl.
    destruct (direction =? DIR_INPUT); now rewrite H0.
  - intros level Hm.
    assert (Hv : (level =? LEVEL_HIGH) || (level =? LEVEL_LOW) = true)
      by (destruct Hm; subst; reflexivity).
    unfold digitalWrite, bind, assert, getattr, lshift, ret, raise; simpl.
    rewrite Hi; simpl. rewrite H16, Hv; simpl. rewrite H8; simpl.
    destruct (level =? LEVEL_HIGH); now rewrite H0.
  - intros t' resp v E N. unfold digitalRead.
    unfold bind at 1, getattr at 1; simpl.
    unfold bind at 1; rewrite Hi; simpl.
    unfold bind at 1, assert at 1; rewrite H16; simpl.
    rewrite H8.
    erewrite bind_Return by (eapply _readRegister_ok; eassumption).
    unfold bind, setattr, getattr, lshift, raise; simpl. now rewrite H0.
Qed.

End NegativePins.

(** ** Instances

    Each property above that has a precondition, at a concrete driver and
    transport. *)

Lemma setDirection_pin_bit_witness :
  let s := patched (__init__ 0 0 (-1) 0) 0 0 24 in
  let w := fresh_world (FlakyBus 1) in
  ready 24 (s, w) /\ answers (spi w) /\ 0 <= 10 < 16 /\
  exists s' w',
    setDirection 10 DIR_INPUT (s, w) = (Return tt, (s', w')) /\
    Z.testbit (_IODIRB s') 2 = true.
Proof.
  intros s w.
  assert (Hr : ready 24 (s, w)) by (repeat split).
  assert (Ha : answers (spi w)) by (intros frame; eexists; reflexivity).
  split; [exact Hr|]. split; [exact Ha|]. split; [lia|].
  destruct (setDirection_pin_bit s w 24 10 DIR_INPUT Hr Ha ltac:(lia) (or_introl eq_refl))
    as (s' & w' & R & _ & B & _).
  exists s', w'. split; [exact R | exact (B 2 ltac:(lia))].
Defined.

Lemma setPullupMode_pin_bit_witness :
  let s := patched (__init__ 0 0 (-1) 0) 0 0 24 in
  let w := fresh_world (FlakyBus 1) in
  ready 24 (s, w) /\ answers (spi w) /\ 0 <= 3 < 16 /\
  exists s' w',
    setPullupMode 3 PULLUP_ENABLED (s, w) = (Return tt, (s', w')) /\
    Z.testbit (_GPPUA s') 3 = true.
Proof.
  intros s w.
  assert (Hr : ready 24 (s, w)) by (repeat split).
  assert (Ha : answers (spi w)) by (intros frame; eexists; reflexivity).
  split; [exact Hr|]. split; [exact Ha|]. split; [lia|].
  destruct (setPullupMode_pin_bit s w 24 3 PULLUP_ENABLED Hr Ha ltac:(lia)
              (or_introl eq_refl)) as (s' & w' & R & _ & B & _).
  exists s', w'. split; [exact R | exact (B 3 ltac:(lia))].
Defined.

Lemma digitalWrite_pin_bit_witness :
  let s := patched (__init__ 0 0 (-1) 0) 0 0 24 in
  let w := fresh_world (FlakyBus 1) in
  ready 24 (s, w) /\ answers (spi w) /\ 0 <= 15 < 16 /\
  exists s' w',
    digitalWrite 15 LEVEL_HIGH (s, w) = (Return tt, (s', w')) /\
    Z.testbit (_GPIOB s') 7 = true.
Proof.
  intros s w.
  assert (Hr : ready 24 (s, w)) by (repeat split).
  assert (Ha : answers (spi w)) by (intros frame; eexists; reflexivity).
  split; [exact Hr|]. split; [exact Ha|]. split; [lia|].
  destruct (digitalWrite_pin_bit s w 24 15 LEVEL_HIGH Hr Ha ltac:(lia)
              (or_introl eq_refl)) as (s' & w' & R & _ & B & _).
  exists s', w'. split; [exact R | exact (B 7 ltac:(lia))].
Defined.

Lemma digitalWrite_high_then_low_witness :
  let s := set_GPIOA 0xF0 (patched (__init__ 0 0 (-1) 0) 0 0 24) in
  let w := fresh_world (EchoChip ∅) in
  ready 24 (s, w) /\ (forall t : echo_chip, answers t) /\ 0 <= 5 < 16 /\
  exists s1 w1 s2 w2,
    digitalWrite 5 LEVEL_HIGH (s, w) = (Return tt, (s1, w1)) /\
    digitalWrite 5 LEVEL_LOW (s1, w1) = (Return tt, (s2, w2)) /\
    Z.testbit (_GPIOA s2) 5 = false /\ Z.testbit (_GPIOA s2) 4 = true.
Proof.
  intros s w.
  assert (Hr : ready 24 (s, w)) by (repeat split).
  split; [exact Hr|]. split; [exact echo_chip_answers|]. split; [lia|].
  destruct (digitalWrite_high_then_low s w 24 5 Hr echo_chip_answers ltac:(lia))
    as (s1 & w1 & s2 & w2 & R1 & R2 & _ & B & _).
  exists s1, w1, s2, w2. split; [exact R1|]. split; [exact R2|].
  split; [exact (B 5 ltac:(lia)) | exact (B 4 ltac:(lia))].
Defined.

Lemma pin_writers_keep_shadow_on_failure_witness :
  let s := patched (__init__ 0 0 (-1) 0) 0 0 24 in
  let w := fresh_world (FlakyBus 0) in
  ready 24 (s, w) /\ (forall frame, spi_xfer2 (spi w) frame = None) /\ 0 <= 3 < 16 /\
  digitalWrite 3 LEVEL_HIGH (s, w) =
    (Raise IOError, (s, World (FlakyBus 0) 0 (refused 24 [0x40; 0x12; 0x08]))).
Proof.
  intros s w.
  assert (Hr : ready 24 (s, w)) by (repeat split).
  split; [exact Hr|]. split; [reflexivity|]. split; [lia|].
  exact (proj2 (proj2 (pin_writers_keep_shadow_on_failure s w 24 3 Hr
                         (fun _ => eq_refl) ltac:(lia)))
           LEVEL_HIGH (or_introl eq_refl)).
Defined.

Lemma readGPIO_word_witness :
  let s := patched (__init__ 0 0 (-1) 0) 0 0 24 in
  let w := fresh_world (EchoChip (<[0x13 := 0x12]> {[ 0x12 := 0x34 ]})) in
  ready 24 (s, w) /\
  exists s' w',
    readGPIO (s, w) = (Return 0x1234, (s', w')) /\
    _GPIOA s' = 0x34 /\ _GPIOB s' = 0x12.
Proof.
  intros s w.
  assert (Hr : ready 24 (s, w)) by (repeat split).
  split; [exact Hr|].
  assert (E1 : spi_xfer2 (spi w) (read_frame s MCP23S17_GPIOA) =
               Some (spi w, [0; 0; 0x34])) by (vm_compute; reflexivity).
  assert (E2 : spi_xfer2 (spi w) (read_frame s MCP23S17_GPIOB) =
               Some (spi w, [0; 0; 0x12])) by (vm_compute; reflexivity).
  destruct (readGPIO_word s w 24 (spi w) (spi w) [0; 0; 0x34] [0; 0; 0x12] 0x34 0x12
              Hr E1 eq_refl E2 eq_refl ltac:(lia) ltac:(lia))
    as (s' & w' & R & A & B & _).
  exists s', w'. split; [exact R|]. split; [exact A | exact B].
Defined.

Lemma digitalRead_no_refresh_on_error_witness :
  let s := patched (__init__ 0 0 (-1) 0) 0 0 24 in
  let w := fresh_world (FlakyBus 0) in
  ready 24 (s, w) /\ 0 <= 9 < 16 /\
  digitalRead 9 (s, w) =
    (Raise IOError, (s, World (FlakyBus 0) 0 (refused 24 [0x41; 0x13; 0]))).
Proof.
  intros s w.
  assert (Hr : ready 24 (s, w)) by (repeat split).
  split; [exact Hr|]. split; [lia|].
  exact (proj1 (digitalRead_no_refresh_on_error s w 24 9 Hr ltac:(lia)) eq_refl).
Defined.

Lemma readGPIO_second_read_fails_witness :
  let s := patched (__init__ 0 0 (-1) 0) 0 0 24 in
  let w := fresh_world (FlakyBus 1) in
  ready 24 (s, w) /\
  fst (readGPIO (s, w)) = Raise IOError /\
  fst (snd (readGPIO (s, w))) = s.
Proof.
  intros s w.
  assert (Hr : ready 24 (s, w)) by (repeat split).
  split; [exact Hr|].
  assert (E1 : spi_xfer2 (spi w) (read_frame s MCP23S17_GPIOA) =
               Some (FlakyBus 0, [0; 0; 0])) by reflexivity.
  assert (E2 : spi_xfer2 (FlakyBus 0) (read_frame s MCP23S17_GPIOB) = None)
    by reflexivity.
  rewrite (readGPIO_second_read_fails s w 24 (FlakyBus 0) [0; 0; 0] 0
             Hr E1 eq_refl E2).
  split; reflexivity.
Defined.

Lemma register_write_sets_clock_mode_witness :
  let s := patched (__init__ 0 0 (-1) 0) 0 0 24 in
  let w := World (EchoChip ∅) 3 [] in
  isInitialized s = true /\ _PIN_MCP_CS s = Some 24 /\ spi_mode w <> _spimode s /\
  (forall t : echo_chip, answers t) /\
  exists w',
    _writeRegister 0x0A 0x28 (s, w) = (Return tt, (s, w')) /\
    transfers (trace w') = [[0]; [0x40; 0x0A; 0x28]] /\
    spi_mode w' = 0.
Proof.
  intros s w.
  assert (Hm : spi_mode w <> _spimode s) by (simpl; lia).
  split; [reflexivity|]. split; [reflexivity|]. split; [exact Hm|].
  split; [exact echo_chip_answers|].
  destruct (register_write_sets_clock_mode s w 24 0x0A 0x28 eq_refl eq_refl Hm
              echo_chip_answers) as (w' & R & Tr & (_ & _ & M)).
  exists w'. split; [exact R|]. split; [now rewrite Tr | exact M].
Defined.


Lemma digitalWrite_digitalRead_echo_witness :
  let s := patched (__init__ 0 0 (-1) 0) 0 0 24 in
  let w := fresh_world (EchoChip ∅) in
  ready 24 (s, w) /\ 0 <= 10 < 16 /\
  exists st1 st2,
    digitalWrite 10 LEVEL_HIGH (s, w) = (Return tt, st1) /\
    digitalRead 10 st1 = (Return LEVEL_HIGH, st2).
Proof.
  intros s w.
  assert (Hr : ready 24 (s, w)) by (repeat split).
  split; [exact Hr|]. split; [lia|].
  exact (digitalWrite_digitalRead_echo s w 24 10 LEVEL_HIGH Hr ltac:(lia)
           (or_introl eq_refl)).
Defined.

Lemma writeGPIO_digitalRead_echo_witness :
  let s := patched (__init__ 0 0 (-1) 0) 0 0 24 in
  let w := fresh_world (EchoChip ∅) in
  ready 24 (s, w) /\ 0 <= 12 < 16 /\
  exists st1 st2,
    writeGPIO 0x1000 (s, w) = (Return tt, st1) /\
    digitalRead 12 st1 = (Return LEVEL_HIGH, st2).
Proof.
  intros s w.
  assert (Hr : ready 24 (s, w)) by (repeat split).
  split; [exact Hr|]. split; [lia|].
  exact (writeGPIO_digitalRead_echo s w 24 12 0x1000 Hr ltac:(lia)).
Defined.

Lemma command_byte_decodes_witness :
  let s := patched (__init__ 0 0 (-1) 5) 0 0 24 in
  let w := fresh_world (FlakyBus 1) in
  ready 24 (s, w) /\ 0 <= deviceID s <= 7 /\
  exists cw cr,
    transfers (trace (snd (snd (_writeRegister 0x12 0xFF (s, w))))) = [[cw; 0x12; 0xFF]] /\
    transfers (trace (snd (snd (_readRegister 0x12 (s, w))))) = [[cr; 0x12; 0]] /\
    Z.land (Z.shiftr cw 1) 0x07 = 5 /\ Z.land (Z.shiftr cr 1) 0x07 = 5.
Proof.
  intros s w.
  assert (Hr : ready 24 (s, w)) by (repeat split).
  assert (Hd : 0 <= deviceID s <= 7) by (simpl; lia).
  split; [exact Hr|]. split; [exact Hd|].
  destruct (command_byte_decodes s w 24 0x12 0xFF Hr Hd)
    as (cw & cr & Tw & Tr & Dw & Dr & _).
  exists cw, cr. split; [exact Tw|]. split; [exact Tr|]. split; [exact Dw | exact Dr].
Defined.

Lemma open_configures_pins_0_to_14_witness :
  let s := patched (__init__ 0 0 (-1) 0) 0 0 24 in
  let w := fresh_world (EchoChip ∅) in
  ready 24 (s, w) /\ bus s = Some 0 /\ ce s = Some 0 /\
  (forall t : echo_chip, is_Some (spi_open t 0 0)) /\
  (forall t : echo_chip, answers t) /\
  exists s' w',
    open (s, w) = (Return tt, (s', w')) /\
    _IODIRA s' = 0xFF /\ _IODIRB s' = 0x7F /\ _GPPUA s' = 0xFF /\ _GPPUB s' = 0x7F.
Proof.
  intros s w.
  assert (Hr : ready 24 (s, w)) by (repeat split).
  assert (Ho : forall t : echo_chip, is_Some (spi_open t 0 0))
    by (intros t; eexists; reflexivity).
  split; [exact Hr|]. split; [reflexivity|]. split; [reflexivity|].
  split; [exact Ho|]. split; [exact echo_chip_answers|].
  destruct (open_configures_pins_0_to_14 s w 24 0 0 Hr eq_refl eq_refl Ho
              echo_chip_answers)
    as (s' & w' & rest & R & _ & _ & A & B & C & D & _).
  exists s', w'. split; [exact R|].
  split; [exact A|]. split; [exact B|]. split; [exact C | exact D].
Defined.

Lemma negative_pin_behaviour_witness :
  let s := patched (__init__ 0 0 (-1) 0) 0 0 24 in
  let w := fresh_world (FlakyBus 1) in
  ready 24 (s, w) /\ -3 < 0 /\
  setDirection (-3) DIR_OUTPUT (s, w) = (Raise ValueError, (s, w)).
Proof.
  intros s w.
  assert (Hr : ready 24 (s, w)) by (repeat split).
  split; [exact Hr|]. split; [lia|].
  exact (proj1 (proj2 (negative_pin_behaviour s w 24 (-3) Hr ltac:(lia)))
           DIR_OUTPUT (or_intror eq_refl)).
Defined.
